(** * Travel Guide: the Markdown-to-PDF path of [travel_guide.py]

    A shallow embedding of [markdown_to_flowables] and [write_pdf]
    (src/travel_guide.py, lines 204-280) together with the Python string
    primitives they call ([str.splitlines], [str.strip], [str.lstrip],
    [str.rstrip], [str.startswith], slicing).

    Python [str] values are sequences of Unicode code points; the bullet glyph
    U+2022 is one character for [lstrip()[1:]], so a string is modelled as a
    list of code points rather than as a list of bytes. *)

From Stdlib Require Import ZArith NArith Ascii String List Lia.
From stdpp Require Import base option list gmap strings.

Local Open Scope N_scope.

(** ** Python strings *)

Definition pystr := list N.

(** An ASCII literal as a Python string. *)
Definition py (s : string) : pystr :=
  map N_of_ascii (list_ascii_of_string s).

(** [str.isspace] on one character (CPython's [_PyUnicode_IsWhitespace]). *)
Definition isspace (c : N) : bool :=
  ((9 <=? c) && (c <=? 13)) || ((28 <=? c) && (c <=? 32))
  || (c =? 133) || (c =? 160) || (c =? 5760)
  || ((8192 <=? c) && (c <=? 8202))
  || (c =? 8232) || (c =? 8233) || (c =? 8239) || (c =? 8287) || (c =? 12288).

(** The line boundaries of [str.splitlines]: LF, VT, FF, CR, FS, GS, RS,
    NEL, LINE SEPARATOR, PARAGRAPH SEPARATOR. *)
Definition is_linebreak (c : N) : bool :=
  ((10 <=? c) && (c <=? 13)) || ((28 <=? c) && (c <=? 30))
  || (c =? 133) || (c =? 8232) || (c =? 8233).

(** [s.splitlines()] without [keepends]: [cur] holds the characters read since
    the last boundary; CR LF counts as one boundary; no empty last line is
    produced after a final boundary. *)
Fixpoint splitlines_from (cur : pystr) (s : pystr) : list pystr :=
  match s with
  | [] => match cur with [] => [] | _ => [cur] end
  | c :: rest =>
      if is_linebreak c then
        cur :: match rest with
               | c' :: rest' =>
                   if (c =? 13) && (c' =? 10) then splitlines_from [] rest'
                   else splitlines_from [] rest
               | [] => splitlines_from [] rest
               end
      else splitlines_from (cur ++ [c]) rest
  end.

Definition splitlines (s : pystr) : list pystr := splitlines_from [] s.

(** [s.lstrip()], [s.rstrip()], [s.strip()] with no argument. *)
Fixpoint lstrip (s : pystr) : pystr :=
  match s with
  | [] => []
  | c :: rest => if isspace c then lstrip rest else s
  end.

Definition rstrip (s : pystr) : pystr := rev (lstrip (rev s)).

Definition strip (s : pystr) : pystr := rstrip (lstrip s).

(** [s.startswith(p)]. *)
Fixpoint startswith (p s : pystr) : bool :=
  match p, s with
  | [] , _ => true
  | _ :: _, [] => false
  | a :: p', b :: s' => (a =? b) && startswith p' s'
  end.

(** [s.startswith((p1, ..., pn))]: true when one of the prefixes matches. *)
Definition startswith_any (ps : list pystr) (s : pystr) : bool :=
  existsb (fun p => startswith p s) ps.

(** Truthiness of a string: [not s] is true exactly for the empty string. *)
Definition is_empty (s : pystr) : bool :=
  match s with [] => true | _ => false end.

(** The tuple [("-", "*", "•")]; the bullet glyph is U+2022. *)
Definition bullet_markers : list pystr := [[45]; [42]; [8226]].

(** The line feed, as a one-character string. *)
Definition nl : pystr := [10].

(** The literals ["## "] and ["### "]. *)
Definition h2_marker : pystr := [35; 35; 32].
Definition h3_marker : pystr := [35; 35; 35; 32].

(** ** Exceptions and results *)

(** The exceptions of this part of the program: a missing stylesheet entry,
    a text ReportLab cannot parse as paragraph markup (with the text), and
    what a document builder raises. *)
Inductive exn : Type :=
| KeyError (key : string)
| ValueError (text : pystr)
| LayoutError
| OSError.

(** What a call does: it returns, it raises, or the model ran out of fuel. *)
Inductive outcome (A : Type) : Type :=
| Return (a : A)
| Raise (e : exn)
| OutOfFuel.

Arguments Return {A} a.
Arguments Raise {A} e.
Arguments OutOfFuel {A}.

Definition obind {A B} (m : outcome A) (k : A -> outcome B) : outcome B :=
  match m with
  | Return a => k a
  | Raise e => Raise e
  | OutOfFuel => OutOfFuel
  end.

Notation "'let!' x ':=' m 'in' k" := (obind m (fun x => k))
  (at level 10, x name, m at level 100, k at level 200).

(** ** ReportLab flowables, as far as the program builds them *)

Module platypus.

(** [ListItem(Paragraph(text, style), leftIndent=...)]. *)
Inductive ListItem (S : Type) : Type :=
| mkListItem (text : pystr) (style : S) (leftIndent : Z).

Inductive Flowable (S : Type) : Type :=
| Spacer (width height : Z)
| Paragraph (text : pystr) (style : S)
| ListFlowable (items : list (ListItem S)) (bulletType : string)
               (start : pystr) (leftIndent : Z).

Arguments mkListItem {S} text style leftIndent.
Arguments Spacer {S} width height.
Arguments Paragraph {S} text style.
Arguments ListFlowable {S} items bulletType start leftIndent.

End platypus.
Import platypus.

(** ** The scanning loop of [markdown_to_flowables] (lines 217-249)

    The loop is written once, over any type [S] of paragraph styles, with the
    three styles it uses ([body], [h2], [h3]) as parameters.  The index [i]
    is represented by the lines that are left, [lines[i:]]. *)

Section Scanner.

Context {S : Type}.

(** ReportLab's [Paragraph(text, style)] parses [text] as paragraph markup
    when the paragraph is made, and raises [ValueError] for a text it cannot
    parse (an unclosed tag, for one).  The parser is ReportLab's own:
    [accepts] says which texts it parses. *)
Variable accepts : pystr -> bool.

Variables (body h2 h3 : S).

(** [line.lstrip().startswith(("-", "*", "•"))]. *)
Definition is_bullet_line (line : pystr) : bool :=
  startswith_any bullet_markers (lstrip line).

(** [lines[i].lstrip()[1:].strip()]. *)
Definition bullet_text (line : pystr) : pystr :=
  strip (drop 1 (lstrip line)).

(** The call [Paragraph(text, style)]. *)
Definition new_Paragraph (text : pystr) (style : S) : outcome (Flowable S) :=
  if accepts text then Return (Paragraph text style)
  else Raise (ValueError text).

(** The inner [while] (lines 238-241): it appends one item per bullet line
    and stops at the end of the input or at the first line that is not a
    bullet line, which it leaves in place; the paragraph of an item is made
    before the item. *)
Fixpoint take_items (lines : list pystr) (items : list (ListItem S))
  : outcome (list (ListItem S) * list pystr) :=
  match lines with
  | [] => Return (items, [])
  | l :: rest =>
      if is_bullet_line l then
        if accepts (bullet_text l)
        then take_items rest (items ++ [mkListItem (bullet_text l) body 12%Z])
        else Raise (ValueError (bullet_text l))
      else Return (items, lines)
  end.

(** The outer [while] (lines 219-247).  Each unit of [fuel] pays for one
    test of the loop condition; [OutOfFuel] means the fuel ran out. *)
Fixpoint scan (fuel : nat) (lines : list pystr) (flow : list (Flowable S))
  : outcome (list (Flowable S)) :=
  match fuel with
  | O => OutOfFuel
  | Datatypes.S fuel' =>
      match lines with
      | [] => Return flow
      | raw :: rest =>
          let line := rstrip raw in
          if is_empty (strip line) then
            scan fuel' rest (flow ++ [Spacer 1 6])
          else if startswith h2_marker line then
            let! p := new_Paragraph (strip (drop 3 line)) h2 in
            scan fuel' rest (flow ++ [p])
          else if startswith h3_marker line then
            let! p := new_Paragraph (strip (drop 4 line)) h3 in
            scan fuel' rest (flow ++ [p])
          else if is_bullet_line line then
            let! taken := take_items lines [] in
            scan fuel' (snd taken)
                 (flow ++ [ListFlowable (fst taken) "bullet" [8226] 6%Z;
                           Spacer 1 4])
          else
            let! p := new_Paragraph line body in
            scan fuel' rest (flow ++ [p])
      end
  end.

(** The loop run from [i = 0] with an empty [flow]; one test of the loop
    condition per line and a last one that fails is the most a run can
    need when every iteration advances [i]. *)
Definition scan_lines (lines : list pystr) : outcome (list (Flowable S)) :=
  scan (Datatypes.S (length lines)) lines [].

End Scanner.

(** ** The specification's view of the classifier *)

(** The blocks of the specification; [Para] is its paragraph block, the name
    [Paragraph] being ReportLab's class. *)
Inductive LayoutBlock : Type :=
| Blank (height : Z)
| Heading (level : Z) (text : pystr)
| ListBlock (items : list pystr)
| Para (text : pystr).

(** Which of the three local styles a paragraph was built with. *)
Inductive StyleSlot : Type := BodySlot | H2Slot | H3Slot.

Definition item_text {S} (it : ListItem S) : pystr :=
  match it with mkListItem t _ _ => t end.

(** A spacer is a [Blank], a paragraph in [h2] or [h3] a [Heading], a
    paragraph in [body] a plain paragraph, a list flowable a [ListBlock]. *)
Definition block_of (f : Flowable StyleSlot) : LayoutBlock :=
  match f with
  | Spacer _ h => Blank h
  | Paragraph t H2Slot => Heading 2 t
  | Paragraph t H3Slot => Heading 3 t
  | Paragraph t BodySlot => Para t
  | ListFlowable items _ _ _ => ListBlock (map item_text items)
  end.

(** [buildBlocks], on the lines of a document and on its text: the loop with
    its results read as blocks.  A block is plain data and holds its text as
    it is, so no text is refused here; what ReportLab does with the texts is
    in [markdown_to_flowables] below. *)
Definition blocks_of_lines (lines : list pystr) : option (list LayoutBlock) :=
  match scan_lines (fun _ => true) BodySlot H2Slot H3Slot lines with
  | Return flow => Some (map block_of flow)
  | _ => None
  end.

Definition buildBlocks (sourceText : pystr) : option (list LayoutBlock) :=
  blocks_of_lines (splitlines sourceText).

(** The text a block carries, in block and item order; a [Blank] carries
    none. *)
Definition block_texts (b : LayoutBlock) : list pystr :=
  match b with
  | Blank _ => []
  | Heading _ t => [t]
  | ListBlock items => items
  | Para t => [t]
  end.

Definition texts (bs : list LayoutBlock) : list pystr :=
  concat (map block_texts bs).

(** A line is blank when it is empty or holds white space only. *)
Definition is_blank_line (raw : pystr) : bool := is_empty (strip raw).

(** The text the loop takes from a line that is not blank, by the branch the
    line falls in: what follows a heading marker or the marker character of
    a bullet line, trimmed, or the right-trimmed line. *)
Definition line_text (raw : pystr) : pystr :=
  let line := rstrip raw in
  if startswith h2_marker line then strip (drop 3 line)
  else if startswith h3_marker line then strip (drop 4 line)
  else if is_bullet_line raw then bullet_text raw
  else line.

(** A bullet line that holds its marker and nothing else. *)
Definition marker_only (raw : pystr) : bool :=
  is_bullet_line raw && is_empty (strip (drop 1 (lstrip raw))).

(** ** Styles *)

(** The attributes of a [ParagraphStyle] the program sets or inherits. *)
Record ParagraphStyle : Type := mkStyle {
  styleName : string;
  parent : option string;
  fontSize : Z;
  spaceBefore : Z;
  spaceAfter : Z
}.

(** [ParagraphStyle(name, parent=p, ...)]: the attributes of the parent,
    except those given by keyword. *)
Definition derive (name : string) (p : ParagraphStyle)
    (size before after : option Z) : ParagraphStyle :=
  {| styleName := name;
     parent := Some (styleName p);
     fontSize := default (fontSize p) size;
     spaceBefore := default (spaceBefore p) before;
     spaceAfter := default (spaceAfter p) after |}.

(** [styles[key]]: the stylesheet raises [KeyError] for a name it does not
    know. *)
Definition getitem (styles : gmap string ParagraphStyle) (key : string)
  : outcome ParagraphStyle :=
  match styles !! key with
  | Some st => Return st
  | None => Raise (KeyError key)
  end.

(** ** [markdown_to_flowables] (lines 204-249) *)

Definition markdown_to_flowables (accepts : pystr -> bool) (md_text : pystr)
    (styles : gmap string ParagraphStyle)
  : outcome (list (Flowable ParagraphStyle)) :=
  let! body := getitem styles "BodyText" in
  let! p2 := getitem styles "Heading2" in
  let h2 := derive "H2" p2 None (Some 12%Z) (Some 6%Z) in
  let! p3 := getitem styles "Heading3" in
  let h3 := derive "H3" p3 None (Some 8%Z) (Some 4%Z) in
  let lines := splitlines md_text in
  scan_lines accepts body h2 h3 lines.

(** The stylesheet name a block is drawn with: list items are paragraphs in
    the body style, a spacer has no style. *)
Definition style_key (b : LayoutBlock) : option string :=
  match b with
  | Blank _ => None
  | Heading level _ => Some (if (level =? 2)%Z then "Heading2" else "Heading3")
  | ListBlock _ => Some "BodyText"
  | Para _ => Some "BodyText"
  end.

(** ** [write_pdf] (lines 251-280) *)

(** The document template; lengths in tenths of an inch. *)
Record SimpleDocTemplate : Type := mkDoc {
  filename : string;
  pagesize : Z * Z;
  leftMargin : Z;
  rightMargin : Z;
  topMargin : Z;
  bottomMargin : Z;
  title : string;
  author : string
}.

Definition LETTER : Z * Z := (85, 110)%Z.

(** The files the caller can see, by path. *)
Abbreviation files := (gmap string (list N)).

(** [doc.build(story)] belongs to ReportLab: it lays the story out and writes
    the destination, or raises.  It is a parameter of the model: given the
    template, the story and the files, it yields the exception it raised, if
    any, and the files it left. *)
Definition builder : Type :=
  SimpleDocTemplate -> list (Flowable ParagraphStyle) -> files ->
  option exn * files.

(** [styles] stands for the value of [getSampleStyleSheet()] and [now] for
    [datetime.now().strftime('%Y-%m-%d %H:%M')].  The title and the line with
    the time stamp (digits, '-', ':' and a space after "Generated: ") hold
    nothing ReportLab reads as markup, so their two paragraphs are made
    without asking [accepts]. *)
Definition write_pdf (build : builder) (accepts : pystr -> bool)
    (styles : gmap string ParagraphStyle)
    (now : pystr) (markdown_text : pystr) (filename : string) (fs : files)
  : outcome string * files :=
  let doc := mkDoc filename LETTER 5 5 7 7 "Travel Plan" "Travel Guide" in
  let story :=
    let! ttl := getitem styles "Title" in
    let header := derive "Header" ttl (Some 18%Z) None (Some 12%Z) in
    let story := [] ++ [Paragraph (py "Travel Plan") header] in
    let meta := py "Generated: " ++ now in
    let! normal := getitem styles "Normal" in
    let story := story ++ [Paragraph meta normal] in
    let story := story ++ [Spacer 1 10] in
    let! flow := markdown_to_flowables accepts markdown_text styles in
    Return (story ++ flow) in
  match story with
  | Return story =>
      match build doc story fs with
      | (None, fs') => (Return filename, fs')
      | (Some e, fs') => (Raise e, fs')
      end
  | Raise e => (Raise e, fs)
  | OutOfFuel => (OutOfFuel, fs)
  end.

(** ** Runs of bullet lines *)

(** The longest run of bullet lines a list of lines begins with, and the
    lines after it. *)
Fixpoint bullet_run (lines : list pystr) : list pystr :=
  match lines with
  | [] => []
  | l :: rest => if is_bullet_line l then l :: bullet_run rest else []
  end.

Fixpoint after_run (lines : list pystr) : list pystr :=
  match lines with
  | [] => []
  | l :: rest => if is_bullet_line l then after_run rest else lines
  end.

(** Whether a list of lines begins, or ends, with a bullet line. *)
Definition starts_with_bullet (lines : list pystr) : bool :=
  match lines with
  | [] => false
  | l :: _ => is_bullet_line l
  end.

Definition ends_with_bullet (lines : list pystr) : bool :=
  match last lines with
  | None => false
  | Some l => is_bullet_line l
  end.

Definition nonblank (raw : pystr) : bool := negb (is_blank_line raw).

(** The blocks of a list of lines, with the empty sequence standing for a run
    that found no result; [blocks_of_lines_total] shows there is none. *)
Definition blocks (lines : list pystr) : list LayoutBlock :=
  default [] (blocks_of_lines lines).

Definition is_heading (b : LayoutBlock) : bool :=
  match b with Heading _ _ => true | _ => false end.

(** The flowable the loop makes for a block, in the three styles. *)
Definition flowable_of {S} (body h2 h3 : S) (b : LayoutBlock) : Flowable S :=
  match b with
  | Blank h => Spacer 1 h
  | Heading level t => Paragraph t (if (level =? 2)%Z then h2 else h3)
  | ListBlock items =>
      ListFlowable (map (fun t => mkListItem t body 12%Z) items)
                   "bullet" [8226] 6%Z
  | Para t => Paragraph t body
  end.

(** The texts of flowables, in order. *)
Definition flowable_texts {S} (f : Flowable S) : list pystr :=
  match f with
  | Spacer _ _ => []
  | Paragraph t _ => [t]
  | ListFlowable items _ _ _ => map item_text items
  end.

Definition flow_texts {S} (flow : list (Flowable S)) : list pystr :=
  concat (map flowable_texts flow).

(** The first text of a list that the parser refuses. *)
Definition first_rejected (accepts : pystr -> bool) (ts : list pystr)
  : option pystr :=
  List.find (fun t => negb (accepts t)) ts.

(** An outcome with a function applied to what is returned. *)
Definition outcome_map {A B} (f : A -> B) (m : outcome A) : outcome B :=
  let! a := m in Return (f a).

(** A string of white space only. *)
Definition all_space (s : pystr) : bool := forallb isspace s.

(** ** The text of a line, in the specification's words

    White space is what [isspace] says; the markers are written out. *)

Definition white (s : pystr) : Prop := Forall (fun c => isspace c = true) s.

(** A bullet marker: hyphen, asterisk or bullet glyph. *)
Definition is_marker (c : N) : Prop := c = 45 \/ c = 42 \/ c = 8226.

(** No white space at the first place, and none at the last. *)
Definition starts_with_text (t : pystr) : Prop :=
  forall c, head t = Some c -> isspace c = false.

Definition ends_with_text (t : pystr) : Prop :=
  forall c, last t = Some c -> isspace c = false.

(** A string that begins, after white space, with a bullet marker. *)
Definition begins_with_bullet (s : pystr) : Prop :=
  exists indent m rest, white indent /\ is_marker m /\ s = indent ++ m :: rest.

(** [line_has_text raw t]: [t] is the line [raw] with its marker stripped.

    - A heading line is "## " or "### ", then a text that is not empty, with
      white space around it; the text is stripped of both.
    - A bullet line is, after its indentation, one marker character and a
      text, which may be empty, with white space around it; the text is
      stripped of both.
    - Any other line that is not blank has as its text the line without its
      trailing white space. *)
Inductive line_has_text : pystr -> pystr -> Prop :=
| heading2_text pad t trail :
    white pad -> white trail -> starts_with_text t -> ends_with_text t ->
    t <> [] ->
    line_has_text ([35; 35; 32] ++ pad ++ t ++ trail) t
| heading3_text pad t trail :
    white pad -> white trail -> starts_with_text t -> ends_with_text t ->
    t <> [] ->
    line_has_text ([35; 35; 35; 32] ++ pad ++ t ++ trail) t
| bullet_line_text indent m pad t trail :
    white indent -> is_marker m -> white pad -> white trail ->
    starts_with_text t -> ends_with_text t ->
    line_has_text (indent ++ m :: pad ++ t ++ trail) t
| plain_line_text t trail :
    white trail -> ends_with_text t -> t <> [] ->
    (forall rest, t <> [35; 35; 32] ++ rest) ->
    (forall rest, t <> [35; 35; 35; 32] ++ rest) ->
    ~ begins_with_bullet t ->
    line_has_text (t ++ trail) t.

(** The lines that are not blank. *)
Definition text_lines (lines : list pystr) : list pystr :=
  List.filter (fun l => negb (all_space l)) lines.

(** ** Concrete values used by the examples *)

(** A stand-in for ReportLab's parser: it refuses a text in which the tags
    "<b>" and "</b>" are not as many. *)
Fixpoint count_sub (p s : pystr) : nat :=
  match s with
  | [] => 0
  | _ :: s' => (if startswith p s then 1 else 0) + count_sub p s'
  end.

Definition ex_accepts (t : pystr) : bool :=
  Nat.eqb (count_sub (py "<b>") t) (count_sub (py "</b>") t).

(** A stylesheet with the five entries the program reads, with the sizes of
    ReportLab's sample stylesheet. *)
Definition sample_styles : gmap string ParagraphStyle :=
  <["Normal" := mkStyle "Normal" None 10 0 0]>
  (<["BodyText" := mkStyle "BodyText" (Some "Normal") 10 6 0]>
  (<["Title" := mkStyle "Title" (Some "Normal") 18 0 6]>
  (<["Heading2" := mkStyle "Heading2" (Some "Normal") 14 12 6]>
  (<["Heading3" := mkStyle "Heading3" (Some "Normal") 12 12 6]> ∅)))).

(** The same stylesheet without the entry list items are drawn with. *)
Definition styles_without_body : gmap string ParagraphStyle :=
  delete "BodyText" sample_styles.

(** The characters of a story, one flowable after the other: a stand-in for
    the document bytes. *)
Definition flowable_chars (f : Flowable ParagraphStyle) : pystr :=
  match f with
  | Spacer _ _ => nl
  | Paragraph t _ => t ++ nl
  | ListFlowable items _ _ _ => concat (map (fun it => item_text it ++ nl) items)
  end.

Definition story_chars (story : list (Flowable ParagraphStyle)) : pystr :=
  concat (map flowable_chars story).

(** A builder that opens its destination for writing and writes the document
    there, on a device with room for [room] more characters: when the
    document is longer, the write fails with what fitted left in place. *)
Definition direct_build (room : nat) : builder :=
  fun doc story fs =>
    let data := story_chars story in
    if (length data <=? room)%nat
    then (None, <[filename doc := data]> fs)
    else (Some OSError, <[filename doc := take room data]> fs).

(** The document of the classification scenario. *)
Definition scenario_text : pystr :=
  py "## Trip Overview" ++ nl ++ py "Sample text." ++ nl ++ nl
  ++ py "### Day 1" ++ nl ++ py "- Museum visit" ++ nl
  ++ py "- Coffee break" ++ nl.

(** Lines for the examples: a paragraph, two bullet items with different
    markers and indentation, a blank line, an item with the bullet glyph. *)
Definition ex_pre : list pystr := [py "Plan:"].
Definition ex_run : list pystr := [py "- Museum visit"; py "   * Coffee break"].
Definition ex_rest : list pystr := [py "  "; 8226 :: py " Walk"; py "Done."].

(** A time stamp, and the template [write_pdf] makes for a destination. *)
Definition ex_now : pystr := py "2026-01-01 10:00".

Definition doc_for (filename : string) : SimpleDocTemplate :=
  mkDoc filename LETTER 5 5 7 7 "Travel Plan" "Travel Guide".

(** ** Shapes of the output *)

(** The sequences the loop can emit: a list block has an item and is followed
    at once by its spacer of height 4, any other spacer has height 6, and a
    heading has level 2 or 3. *)
Fixpoint shape_ok (bs : list LayoutBlock) : bool :=
  match bs with
  | [] => true
  | ListBlock items :: rest =>
      negb (Nat.eqb (length items) 0) &&
      match rest with
      | Blank h :: rest' => (h =? 4)%Z && shape_ok rest'
      | _ => false
      end
  | Blank h :: rest => (h =? 6)%Z && shape_ok rest
  | Heading level _ :: rest => ((level =? 2)%Z || (level =? 3)%Z) && shape_ok rest
  | Para _ :: rest => shape_ok rest
  end.

(** What the texts of a block look like: a heading's text is trimmed on both
    sides and not empty, an item's text is trimmed on both sides, a
    paragraph's text has no trailing white space and is not blank. *)
Definition text_ok (b : LayoutBlock) : Prop :=
  match b with
  | Blank _ => True
  | Heading _ t => strip t = t /\ t <> []
  | ListBlock items => Forall (fun t => strip t = t) items
  | Para t => rstrip t = t /\ all_space t = false
  end.

(** A bullet line without its indentation. *)
Definition unindent_bullet (raw : pystr) : pystr :=
  if is_bullet_line raw then lstrip raw else raw.

(** A string without line boundaries. *)
Definition no_break (s : pystr) : bool := forallb (fun c => negb (is_linebreak c)) s.

(** Lines written out with the terminator [sep] after each. *)
Definition unlines (sep : pystr) (lines : list pystr) : pystr :=
  concat (map (fun l => l ++ sep) lines).

(** The block a flowable of [markdown_to_flowables] stands for, read off the
    name of its style: the derived styles are named "H2" and "H3". *)
Definition block_of_flowable (f : Flowable ParagraphStyle) : LayoutBlock :=
  match f with
  | Spacer _ h => Blank h
  | Paragraph t st =>
      if String.eqb (styleName st) "H2" then Heading 2 t
      else if String.eqb (styleName st) "H3" then Heading 3 t
      else Para t
  | ListFlowable items _ _ _ => ListBlock (map item_text items)
  end.

(** ** Session state (lines 56-85)

    [st.session_state] is a dictionary from widget keys to Python values. *)

Inductive value : Type :=
| VNone
| VInt (n : Z)
| VStr (s : pystr)
| VObj (id : N).

Abbreviation session := (gmap string value).

(** [d.setdefault(key, v)]: the value of a key that is present stays. *)
Definition setdefault (key : string) (v : value) (ss : session) : session :=
  match ss !! key with
  | Some _ => ss
  | None => <[key := v]> ss
  end.

(** [d.pop(key, None)]. *)
Definition pop (key : string) (ss : session) : session := delete key ss.

Definition FORM_KEYS : list string :=
  ["destination"; "num_days"; "interests"; "guardrails"].

Definition init_form_state (ss : session) : session :=
  let ss := setdefault "destination" (VStr []) ss in
  let ss := setdefault "num_days" (VInt 3) ss in
  let ss := setdefault "interests" (VStr []) ss in
  let ss := setdefault "guardrails" (VStr []) ss in
  setdefault "plan_md" (VStr []) ss.

Definition reset_all_callback (ss : session) : session :=
  let ss := <["destination" := VStr []]> ss in
  let ss := <["num_days" := VInt 3]> ss in
  let ss := <["interests" := VStr []]> ss in
  let ss := <["guardrails" := VStr []]> ss in
  let ss := <["plan_md" := VStr []]> ss in
  let ss := pop "last_model_used" ss in
  pop "last_usage" ss.

Definition clear_fields_only_callback (ss : session) : session :=
  let ss := <["destination" := VStr []]> ss in
  let ss := <["num_days" := VInt 3]> ss in
  let ss := <["interests" := VStr []]> ss in
  <["guardrails" := VStr []]> ss.

(** The value each form key starts with, and the start value of the plan. *)
Definition form_default (key : string) : option value :=
  if String.eqb key "destination" then Some (VStr [])
  else if String.eqb key "num_days" then Some (VInt 3)
  else if String.eqb key "interests" then Some (VStr [])
  else if String.eqb key "guardrails" then Some (VStr [])
  else None.

Definition state_default (key : string) : option value :=
  if String.eqb key "plan_md" then Some (VStr []) else form_default key.

Definition is_model_key (key : string) : bool :=
  String.eqb key "last_model_used" || String.eqb key "last_usage".

(** ** Chat completions (lines 146-199) *)

(** One element of a list-valued message content. *)
Inductive part : Type :=
| PStr (s : pystr)
| PDict (d : gmap string value)
| POther.

(** [comp.choices[i].message.content]: a string, a list of parts, or
    anything else ([None] included). *)
Inductive content : Type :=
| CStr (s : pystr)
| CList (parts : list part)
| COther.

(** A completion, as far as the program reads it: the contents of its
    choices, and its [usage] attribute when it has one. *)
Record completion : Type := mkCompletion {
  choices : list content;
  usage : option N
}.

(** [sep.join(parts)]. *)
Fixpoint join (sep : pystr) (parts : list pystr) : pystr :=
  match parts with
  | [] => []
  | p :: rest =>
      match rest with
      | [] => p
      | _ :: _ => p ++ sep ++ join sep rest
      end
  end.

(** The string a part contributes, if any: the part itself when it is a
    string, its ["text"] entry when it is a dictionary with a string there. *)
Definition part_text (p : part) : option pystr :=
  match p with
  | PStr s => Some s
  | PDict d =>
      match d !! "text" with
      | Some (VStr s) => Some s
      | _ => None
      end
  | POther => None
  end.

(** The body of the [try] runs to its end without a [return] when the
    content is a blank string, a list without text, or neither a string nor a
    list; [comp.choices[0]] raises for an empty [choices], which the [except]
    swallows.  All of these reach the final [return ""]. *)
Definition _extract_text_from_chat_completion (comp : completion) : pystr :=
  match choices comp with
  | [] => []
  | txt :: _ =>
      match txt with
      | CStr s => if negb (is_empty (strip s)) then s else []
      | CList ps =>
          let parts := omap part_text ps in
          let joined := strip (join nl parts) in
          if negb (is_empty joined) then joined else []
      | COther => []
      end
  end.

Definition FALLBACK_MODELS : list string := ["gpt-5"; "gpt-5-mini"; "gpt-4.1"].

(** What [last_error] holds: the exception of a failed call, with its text,
    or the [RuntimeError] made for a model that returned no text. *)
Inductive attempt_error : Type :=
| ApiError (msg : string)
| EmptyContent (model_name : string).

(** What [get_plan_markdown] does: it returns the text, or raises the
    [RuntimeError] "All model attempts failed" with the last error. *)
Inductive plan_result : Type :=
| Plan (text : pystr)
| AllAttemptsFailed (last_error : option attempt_error).

(** [getattr(comp, "usage", None)] as a session value. *)
Definition usage_value (comp : completion) : value :=
  match usage comp with
  | Some u => VObj u
  | None => VNone
  end.

Section Generation.

(** The service behind [client.chat.completions.create]: [W] is its state,
    and a call with a model name, the messages and [max_completion_tokens]
    gives a completion or raises (with the text of the exception). *)
Context {W : Type}.
Variable create :
  string -> list (string * pystr) -> Z -> W -> (string + completion) * W.

(** The text of the system message. *)
Variable SYSTEM_PROMPT : pystr.

(** The [for] loop of [get_plan_markdown] (lines 182-197), from the models
    that are left. *)
Fixpoint try_models (models : list string) (messages : list (string * pystr))
    (last_error : option attempt_error) (ss : session) (w : W)
  : plan_result * session * W :=
  match models with
  | [] => (AllAttemptsFailed last_error, ss, w)
  | model_name :: rest =>
      match create model_name messages 2200 w with
      | (inr comp, w') =>
          let text := _extract_text_from_chat_completion comp in
          if negb (is_empty (strip text)) then
            let ss := <["last_model_used" := VStr (py model_name)]> ss in
            let ss := <["last_usage" := usage_value comp]> ss in
            (Plan text, ss, w')
          else
            try_models rest messages (Some (EmptyContent model_name)) ss w'
      | (inl e, w') =>
          try_models rest messages (Some (ApiError e)) ss w'
      end
  end.

Definition get_plan_markdown (user_prompt : pystr) (ss : session) (w : W)
  : plan_result * session * W :=
  let messages := [("system", SYSTEM_PROMPT); ("user", user_prompt)] in
  try_models FALLBACK_MODELS messages None ss w.

(** The state of the service after a call for each of [models] in turn, when
    every one of them fails: by raising, or by a completion without text. *)
Fixpoint all_fail (models : list string) (messages : list (string * pystr))
    (w : W) : option W :=
  match models with
  | [] => Some w
  | model_name :: rest =>
      match create model_name messages 2200 w with
      | (inr comp, w') =>
          if is_empty (strip (_extract_text_from_chat_completion comp))
          then all_fail rest messages w'
          else None
      | (inl _, w') => all_fail rest messages w'
      end
  end.

End Generation.

(** A service for the examples: it keeps the names of the models it was
    called for; the first model raises, the second answers with white space,
    the third answers with a list of parts. *)
Definition ex_completion : completion :=
  mkCompletion
    [CList [PStr (py "## Trip Overview");
            PDict {["text" := VStr (py "- Museum visit  ")]};
            PDict {["kind" := VStr (py "image")]};
            POther]]
    (Some 7).

Definition ex_create (model_name : string) (messages : list (string * pystr))
    (max_completion_tokens : Z) (log : list string)
  : (string + completion) * list string :=
  if String.eqb model_name "gpt-5" then (inl "rate limit", log ++ [model_name])
  else if String.eqb model_name "gpt-5-mini"
  then (inr (mkCompletion [CStr (py "   ")] None), log ++ [model_name])
  else (inr ex_completion, log ++ [model_name]).

(** A service that is down. *)
Definition ex_create_down (model_name : string)
    (messages : list (string * pystr)) (max_completion_tokens : Z)
    (log : list string) : (string + completion) * list string :=
  (inl "connection error", log ++ [model_name]).

(** ** The main action (lines 335-390)

    The calls to Streamlit that show something are kept, in order, as a list;
    the texts built with f-strings are kept as the constructor and the value
    put in. *)

Inductive ui_call : Type :=
| st_warning (body : string)
| st_spinner (body : string)
| st_error_generation (last_error : option attempt_error)
| st_error_pdf (e : exn)
| st_success (body : string)
| st_caption_model (v : value)
| st_caption_usage (v : value)
| st_subheader (body : string)
| st_markdown (body : pystr)
| st_text_area (label : string) (v : pystr)
| st_download_button (data : list N) (file_name mime : string)
| st_info (body : string).

(** An exception no [except] of the script catches; [ModelOutOfFuel] is the
    model's own. *)
Inductive crash : Type :=
| UncaughtKeyError (key : string)
| UncaughtAttributeError
| UncaughtTypeError
| UncaughtValueError
| ModelOutOfFuel.

(** [bool(v)]: [None], 0 and the empty string are false; an object without
    [__bool__] and [__len__] is true. *)
Definition truthy (v : value) : bool :=
  match v with
  | VNone => false
  | VInt n => negb (n =? 0)%Z
  | VStr s => negb (is_empty s)
  | VObj _ => true
  end.

(** [(v or "").strip()]: only strings have [strip]. *)
Definition or_empty_strip (v : value) : crash + pystr :=
  if truthy v then
    match v with
    | VStr s => inr (strip s)
    | _ => inl UncaughtAttributeError
    end
  else inr (strip []).

(** [v.strip()]. *)
Definition strip_value (v : value) : crash + pystr :=
  match v with
  | VStr s => inr (strip s)
  | _ => inl UncaughtAttributeError
  end.

Definition is_download (c : ui_call) : bool :=
  match c with st_download_button _ _ _ => true | _ => false end.

Section MainAction.

Context {W : Type}.

(** What the script sees and changes: what is on the page, the session, the
    service and the files. *)
Record world : Type := mkWorld {
  w_ui : list ui_call;
  w_session : session;
  w_api : W;
  w_files : files
}.

Variable create :
  string -> list (string * pystr) -> Z -> W -> (string + completion) * W.
Variable SYSTEM_PROMPT : pystr.

(** [build_user_prompt(destination, num_days, interests, guardrails)]. *)
Variable build_user_prompt : pystr -> Z -> value -> value -> pystr.

(** [int(s)] for a string: the number, or [ValueError]. *)
Variable int_of_str : pystr -> option Z.

(** [doc.build], ReportLab's markup parser, the value of
    [getSampleStyleSheet()] and the time stamp, as for [write_pdf]. *)
Variable build : builder.
Variable accepts : pystr -> bool.
Variable styles : gmap string ParagraphStyle.
Variable now : pystr.

Definition say (c : ui_call) (w : world) : world :=
  mkWorld (w_ui w ++ [c]) (w_session w) (w_api w) (w_files w).

(** [int(v or 0)]. *)
Definition int_or_zero (v : value) : crash + Z :=
  if truthy v then
    match v with
    | VInt n => inr n
    | VStr s =>
        match int_of_str s with
        | Some n => inr n
        | None => inl UncaughtValueError
        end
    | _ => inl UncaughtTypeError
    end
  else inr 0%Z.

(** Lines 336-355: the inputs are checked and the plan is generated. *)
Definition generate (w : world) : option crash * world :=
  match w_session w !! "destination" with
  | None => (Some (UncaughtKeyError "destination"), w)
  | Some vd =>
  match or_empty_strip vd with
  | inl c => (Some c, w)
  | inr destination =>
  match w_session w !! "num_days" with
  | None => (Some (UncaughtKeyError "num_days"), w)
  | Some vn =>
  match int_or_zero vn with
  | inl c => (Some c, w)
  | inr num_days =>
      if is_empty destination then
        (None, say (st_warning "Please provide a **Destination**.") w)
      else if (num_days <? 1)%Z then
        (None, say (st_warning "Please provide a valid **Number of Days**.") w)
      else
        let w := say (st_spinner "Generating your travel plan...") w in
        match w_session w !! "interests" with
        | None => (Some (UncaughtKeyError "interests"), w)
        | Some vi =>
        match w_session w !! "guardrails" with
        | None => (Some (UncaughtKeyError "guardrails"), w)
        | Some vg =>
            let user_prompt := build_user_prompt destination num_days vi vg in
            match get_plan_markdown create SYSTEM_PROMPT user_prompt
                    (w_session w) (w_api w) with
            | (Plan text, ss', api') =>
                (None,
                 mkWorld (w_ui w) (<["plan_md" := VStr text]> ss') api'
                         (w_files w))
            | (AllAttemptsFailed e, ss', api') =>
                let w := say (st_error_generation e) w in
                (None,
                 mkWorld (w_ui w) (<["plan_md" := VStr []]> ss') api'
                         (w_files w))
            end
        end
        end
  end
  end
  end
  end.

(** Lines 357-384: the plan in the session is shown and exported. *)
Definition display (w : world) : option crash * world :=
  match w_session w !! "plan_md" with
  | None => (Some (UncaughtKeyError "plan_md"), w)
  | Some v =>
  match strip_value v, v with
  | inr stripped, VStr plan_md =>
      if negb (is_empty stripped) then
        let w := say (st_success "Travel plan generated!") w in
        let w :=
          say (st_caption_model
                 (default (VStr (py "unknown"))
                          (w_session w !! "last_model_used"))) w in
        let w :=
          match w_session w !! "last_usage" with
          | Some u => if truthy u then say (st_caption_usage u) w else w
          | None => w
          end in
        let w := say (st_subheader "Your Travel Plan") w in
        let w := say (st_markdown plan_md) w in
        let w := say (st_text_area "Plan (raw)" plan_md) w in
        match write_pdf build accepts styles now plan_md "travel_plan.pdf"
                (w_files w) with
        | (Return pdf_path, fs') =>
            let w := mkWorld (w_ui w) (w_session w) (w_api w) fs' in
            match fs' !! pdf_path with
            | Some data =>
                (None,
                 say (st_download_button data "travel_plan.pdf"
                        "application/pdf") w)
            | None =>
                let w := say (st_error_pdf OSError) w in
                (None,
                 say (st_info
                        "You can still copy the plan above while we sort out PDF export.")
                     w)
            end
        | (Raise e, fs') =>
            let w := mkWorld (w_ui w) (w_session w) (w_api w) fs' in
            let w := say (st_error_pdf e) w in
            (None,
             say (st_info
                    "You can still copy the plan above while we sort out PDF export.")
                 w)
        | (OutOfFuel, fs') =>
            (Some ModelOutOfFuel, mkWorld (w_ui w) (w_session w) (w_api w) fs')
        end
      else
        let w := say (st_warning "The model returned an empty response.") w in
        (None,
         say (st_info
                "Try again, or verify your API key/model access in Diagnostics above.")
             w)
  | inl c, _ => (Some c, w)
  | inr _, _ => (Some UncaughtAttributeError, w)
  end
  end.

(** Lines 386-390: nothing was submitted. *)
Definition idle (w : world) : option crash * world :=
  match w_session w !! "plan_md" with
  | None =>
      (None,
       say (st_info "Fill in the fields above and click **Generate Travel Plan**.")
           w)
  | Some v =>
  match strip_value v, v with
  | inr stripped, VStr plan_md =>
      if negb (is_empty stripped) then
        let w := say (st_subheader "Last Generated Plan") w in
        (None, say (st_markdown plan_md) w)
      else
        (None,
         say (st_info
                "Fill in the fields above and click **Generate Travel Plan**.")
             w)
  | inl c, _ => (Some c, w)
  | inr _, _ => (Some UncaughtAttributeError, w)
  end
  end.

(** Lines 335-390. *)
Definition main_action (submitted : bool) (w : world) : option crash * world :=
  if submitted then
    match generate w with
    | (Some c, w') => (Some c, w')
    | (None, w') => display w'
    end
  else idle w.

End MainAction.

Arguments mkWorld {W} w_ui w_session w_api w_files.

(** A session that holds what the form widgets and [init_form_state] put
    there: a string destination, an integer number of days, some interests
    and guardrails, and a string plan. *)
Definition form_ready (ss : session) : Prop :=
  (exists d, ss !! "destination" = Some (VStr d)) /\
  (exists n, ss !! "num_days" = Some (VInt n)) /\
  is_Some (ss !! "interests") /\
  is_Some (ss !! "guardrails") /\
  (exists p, ss !! "plan_md" = Some (VStr p)).

(** A prompt builder for the examples. *)
Definition ex_prompt (destination : pystr) (num_days : Z)
    (interests guardrails : value) : pystr :=
  py "Destination: " ++ destination.

(** A filled-in form. *)
Definition ex_form : session :=
  <["destination" := VStr (py " Tokyo ")]>
  (<["num_days" := VInt 3]> (init_form_state ∅)).

(** The text the example service answers with, and the worlds of the
    examples: nothing on the page, no call made, no file. *)
Definition ex_plan_text : pystr :=
  py "## Trip Overview" ++ nl ++ py "- Museum visit".

Definition ex_world (ss : session) : @world (list string) :=
  mkWorld [] ss [] ∅.

Arguments is_bullet_line : simpl never.
Arguments is_blank_line : simpl never.
Arguments bullet_text : simpl never.
Arguments rstrip : simpl never.
Arguments strip : simpl never.

(** * Properties *)

(** ** White space and markers *)

Lemma lstrip_nil_iff s : lstrip s = [] <-> all_space s = true.
Proof.
  induction s as [|c s IH]; simpl; [tauto|].
  destruct (isspace c); simpl; [exact IH|]. split; discriminate.
Qed.

Lemma lstrip_snoc s c :
  lstrip (s ++ [c]) =
  match lstrip s with
  | [] => if isspace c then [] else [c]
  | _ :: _ => lstrip s ++ [c]
  end.
Proof.
  induction s as [|a s IH]; simpl; [reflexivity|].
  destruct (isspace a); [exact IH|reflexivity].
Qed.

Lemma rstrip_cons c s :
  rstrip (c :: s) =
  if is_empty (rstrip s) && isspace c then [] else c :: rstrip s.
Proof.
  unfold rstrip. simpl rev. rewrite lstrip_snoc.
  destruct (lstrip (rev s)) as [|x xs] eqn:E; simpl.
  - destruct (isspace c); reflexivity.
  - rewrite rev_app_distr. simpl.
    destruct (rev xs ++ [x]) eqn:E'; [|reflexivity].
    destruct (rev xs); discriminate.
Qed.

Lemma rstrip_nil : rstrip [] = [].
Proof. reflexivity. Qed.

Lemma rstrip_nil_iff s : rstrip s = [] <-> all_space s = true.
Proof.
  induction s as [|c s IH]; [simpl; tauto|].
  rewrite rstrip_cons. simpl.
  destruct (rstrip s) eqn:E; simpl.
  - destruct (isspace c); simpl; [|split; discriminate].
    split; intros _; [apply IH|]; reflexivity.
  - split; [discriminate|]. intros H. apply andb_true_iff in H as [_ H].
    apply IH in H. discriminate.
Qed.

Lemma all_space_cons c s : all_space (c :: s) = isspace c && all_space s.
Proof. reflexivity. Qed.

Lemma all_space_rstrip s : all_space (rstrip s) = all_space s.
Proof.
  induction s as [|c s IH]; [reflexivity|].
  rewrite rstrip_cons, all_space_cons.
  destruct (rstrip s) eqn:E.
  - assert (Hs : all_space s = true) by (apply rstrip_nil_iff; exact E).
    rewrite Hs. simpl is_empty. simpl andb.
    destruct (isspace c) eqn:Ec; [reflexivity|].
    rewrite all_space_cons, Ec. reflexivity.
  - simpl is_empty. rewrite andb_false_l, all_space_cons, <- IH.
    reflexivity.
Qed.

Lemma all_space_lstrip s : all_space (lstrip s) = all_space s.
Proof.
  induction s as [|c s IH]; [reflexivity|]. simpl.
  destruct (isspace c) eqn:E; simpl; [exact IH|]. rewrite E. reflexivity.
Qed.

Lemma is_empty_true (s : pystr) : is_empty s = true <-> s = [].
Proof. destruct s; simpl; split; congruence. Qed.

Lemma is_blank_line_spec raw : is_blank_line raw = all_space raw.
Proof.
  unfold is_blank_line, strip.
  destruct (all_space raw) eqn:E.
  - apply is_empty_true, rstrip_nil_iff. rewrite all_space_lstrip. exact E.
  - destruct (rstrip (lstrip raw)) eqn:E'; [|reflexivity].
    apply rstrip_nil_iff in E'. rewrite all_space_lstrip in E'. congruence.
Qed.

(** The blank test of the loop, made on the right-trimmed line, is the blank
    test on the line itself. *)
Lemma blank_rstrip raw : is_empty (strip (rstrip raw)) = is_blank_line raw.
Proof.
  change (is_blank_line (rstrip raw) = is_blank_line raw).
  rewrite !is_blank_line_spec. apply all_space_rstrip.
Qed.

Lemma head_lstrip_rstrip raw : head (lstrip (rstrip raw)) = head (lstrip raw).
Proof.
  induction raw as [|c s IH]; [reflexivity|].
  rewrite rstrip_cons. simpl.
  destruct (isspace c) eqn:Ec.
  - destruct (rstrip s) eqn:E; simpl.
    + apply rstrip_nil_iff, lstrip_nil_iff in E. rewrite E. reflexivity.
    + rewrite Ec. exact IH.
  - rewrite andb_false_r. simpl. rewrite Ec. reflexivity.
Qed.

Lemma is_bullet_line_head line :
  is_bullet_line line =
  match head (lstrip line) with
  | Some c => (c =? 45) || (c =? 42) || (c =? 8226)
  | None => false
  end.
Proof.
  unfold is_bullet_line, startswith_any, bullet_markers.
  destruct (lstrip line) as [|c tl]; [reflexivity|].
  cbn [existsb startswith head].
  rewrite !andb_true_r, orb_false_r, orb_assoc.
  rewrite (N.eqb_sym 45), (N.eqb_sym 42), (N.eqb_sym 8226). reflexivity.
Qed.

(** The bullet test of the outer loop (on the right-trimmed line) and of the
    inner loop (on the line itself) agree. *)
Lemma bullet_rstrip raw : is_bullet_line (rstrip raw) = is_bullet_line raw.
Proof. rewrite !is_bullet_line_head, head_lstrip_rstrip. reflexivity. Qed.

Lemma bullet_not_blank raw : is_bullet_line raw = true -> is_blank_line raw = false.
Proof.
  rewrite is_bullet_line_head, is_blank_line_spec. intros H.
  destruct (all_space raw) eqn:E; [|reflexivity].
  apply lstrip_nil_iff in E. rewrite E in H. discriminate.
Qed.

Lemma startswith_hash_not_bullet p line :
  startswith (35 :: p) line = true -> is_bullet_line line = false.
Proof.
  destruct line as [|c tl]; [discriminate|]. cbn [startswith].
  intros H. apply andb_true_iff in H as [H _]. apply N.eqb_eq in H. subst c.
  reflexivity.
Qed.

Lemma bullet_not_heading raw :
  is_bullet_line raw = true ->
  startswith h2_marker (rstrip raw) = false /\
  startswith h3_marker (rstrip raw) = false.
Proof.
  intros H. rewrite <- bullet_rstrip in H.
  split.
  - destruct (startswith h2_marker (rstrip raw)) eqn:E; [|reflexivity].
    apply startswith_hash_not_bullet in E. congruence.
  - destruct (startswith h3_marker (rstrip raw)) eqn:E; [|reflexivity].
    apply startswith_hash_not_bullet in E. congruence.
Qed.

(** ** Runs of bullet lines *)

Lemma bullet_run_after_run lines : bullet_run lines ++ after_run lines = lines.
Proof.
  induction lines as [|l rest IH]; [reflexivity|]. simpl.
  destruct (is_bullet_line l); simpl; congruence.
Qed.

Lemma bullet_run_all lines : forallb is_bullet_line (bullet_run lines) = true.
Proof.
  induction lines as [|l rest IH]; [reflexivity|]. simpl.
  destruct (is_bullet_line l) eqn:E; simpl; [rewrite E; exact IH|reflexivity].
Qed.

Lemma after_run_start lines : starts_with_bullet (after_run lines) = false.
Proof.
  induction lines as [|l rest IH]; [reflexivity|]. simpl.
  destruct (is_bullet_line l) eqn:E; simpl; [exact IH|exact E].
Qed.

Lemma after_run_length lines : (length (after_run lines) <= length lines)%nat.
Proof.
  induction lines as [|l rest IH]; simpl; [lia|].
  destruct (is_bullet_line l); simpl; lia.
Qed.

Lemma span_run run rest :
  forallb is_bullet_line run = true -> starts_with_bullet rest = false ->
  bullet_run (run ++ rest) = run /\ after_run (run ++ rest) = rest.
Proof.
  intros Hrun Hrest. induction run as [|l run IH]; simpl.
  - destruct rest as [|r rest]; [split; reflexivity|].
    simpl in Hrest. simpl. rewrite Hrest. split; reflexivity.
  - simpl in Hrun. apply andb_true_iff in Hrun as [Hl Hrun]. rewrite Hl.
    destruct (IH Hrun) as [-> ->]. split; reflexivity.
Qed.

(** Induction over lines the way the loop reads them: one line that is not a
    bullet line, or one whole run of bullet lines. *)
Lemma lines_ind (P : list pystr -> Prop) :
  P [] ->
  (forall raw rest, is_bullet_line raw = false -> P rest -> P (raw :: rest)) ->
  (forall l run rest,
      forallb is_bullet_line (l :: run) = true ->
      starts_with_bullet rest = false -> P rest -> P ((l :: run) ++ rest)) ->
  forall lines, P lines.
Proof.
  intros Hnil Hone Hrun lines.
  remember (length lines) as n eqn:Hn. revert lines Hn.
  induction n as [n IH] using lt_wf_ind. intros lines Hn.
  destruct lines as [|raw rest]; [exact Hnil|].
  destruct (is_bullet_line raw) eqn:E.
  - pose proof (bullet_run_after_run (raw :: rest)) as Hsplit.
    pose proof (bullet_run_all (raw :: rest)) as Hall.
    pose proof (after_run_start (raw :: rest)) as Hstart.
    simpl bullet_run in *. rewrite E in *.
    rewrite <- Hsplit. apply Hrun; [exact Hall|exact Hstart|].
    apply (IH (length (after_run (raw :: rest)))); [|reflexivity].
    subst n. rewrite <- Hsplit at 2. rewrite length_app. simpl. lia.
  - apply Hone; [exact E|]. apply (IH (length rest)); [|reflexivity].
    subst n. simpl. lia.
Qed.

Lemma first_rejected_all ts : first_rejected (fun _ => true) ts = None.
Proof. induction ts as [|t ts IH]; [reflexivity|exact IH]. Qed.

Lemma first_rejected_cons accepts t ts :
  first_rejected accepts (t :: ts) =
  if accepts t then first_rejected accepts ts else Some t.
Proof. unfold first_rejected. simpl. destruct (accepts t); reflexivity. Qed.

Lemma first_rejected_app accepts ts1 ts2 :
  first_rejected accepts (ts1 ++ ts2) =
  match first_rejected accepts ts1 with
  | Some t => Some t
  | None => first_rejected accepts ts2
  end.
Proof.
  induction ts1 as [|t ts1 IH]; [reflexivity|]. simpl app.
  rewrite !first_rejected_cons. destruct (accepts t); [exact IH|reflexivity].
Qed.

Lemma first_rejected_Some accepts ts t :
  first_rejected accepts ts = Some t -> accepts t = false /\ In t ts.
Proof.
  unfold first_rejected. intros H. apply find_some in H as [Hin Hn].
  apply negb_true_iff in Hn. split; assumption.
Qed.

Lemma first_rejected_None accepts ts :
  first_rejected accepts ts = None <-> forallb accepts ts = true.
Proof.
  induction ts as [|t ts IH]; [simpl; tauto|].
  rewrite first_rejected_cons. simpl. destruct (accepts t); simpl; [exact IH|].
  split; discriminate.
Qed.

(** ** The scanning loop *)

Section ScannerFacts.

Context {S : Type}.
Variable accepts : pystr -> bool.
Variables (body h2 h3 : S).

(** The inner loop takes the whole run of bullet lines it stands at, unless
    the parser refuses the text of one of them. *)
Lemma take_items_run lines items :
  take_items accepts body lines items =
  match first_rejected accepts (map bullet_text (bullet_run lines)) with
  | Some t => Raise (ValueError t)
  | None =>
      Return (items ++
              map (fun l => mkListItem (bullet_text l) body 12%Z)
                  (bullet_run lines),
              after_run lines)
  end.
Proof.
  revert items. induction lines as [|l rest IH]; intros items;
    cbn [take_items bullet_run after_run].
  - simpl. rewrite app_nil_r. reflexivity.
  - destruct (is_bullet_line l) eqn:E; cbn [map].
    + rewrite first_rejected_cons.
      destruct (accepts (bullet_text l)); [|reflexivity].
      rewrite IH. destruct (first_rejected accepts _); [reflexivity|].
      rewrite <- app_assoc. reflexivity.
    + simpl. rewrite app_nil_r. reflexivity.
Qed.

Ltac scan_cases :=
  unfold new_Paragraph;
  repeat match goal with
         | |- context [if ?b then _ else _] => destruct b
         | |- context [take_items ?a ?b ?c ?d] =>
             destruct (take_items a b c d) as [[? ?]|?|]
         end;
  cbn [obind outcome_map fst snd].

(** The outer loop only adds to the flow it was given. *)
Lemma scan_acc fuel lines flow :
  scan accepts body h2 h3 fuel lines flow =
  outcome_map (fun r => flow ++ r) (scan accepts body h2 h3 fuel lines []).
Proof.
  revert lines flow. induction fuel as [|fuel IH]; intros lines flow;
    [reflexivity|].
  destruct lines as [|raw rest]; cbn [scan outcome_map obind];
    [rewrite app_nil_r; reflexivity|]. cbv zeta.
  scan_cases; try reflexivity;
    match goal with
    | |- scan _ _ _ _ _ ?ls (_ ++ ?x) = _ =>
        rewrite (IH ls (flow ++ x)), (IH ls ([] ++ x));
        destruct (scan accepts body h2 h3 fuel ls []);
        cbn [outcome_map obind]; [rewrite <- app_assoc|..]; reflexivity
    end.
Qed.

(** Any fuel above the number of lines gives the same result: every
    iteration of the outer loop consumes at least one line. *)
Lemma scan_fuel f1 f2 lines flow :
  (length lines < f1)%nat -> (length lines < f2)%nat ->
  scan accepts body h2 h3 f1 lines flow = scan accepts body h2 h3 f2 lines flow.
Proof.
  revert f2 lines flow. induction f1 as [|f1 IH]; intros f2 lines flow H1 H2;
    [lia|].
  destruct f2 as [|f2]; [lia|].
  destruct lines as [|raw rest]; [reflexivity|].
  simpl in H1, H2. cbn [scan]. cbv zeta. unfold new_Paragraph.
  destruct (is_empty (strip (rstrip raw))); [apply IH; lia|].
  destruct (startswith h2_marker (rstrip raw)).
  { destruct (accepts _); cbn [obind]; [apply IH; lia|reflexivity]. }
  destruct (startswith h3_marker (rstrip raw)).
  { destruct (accepts _); cbn [obind]; [apply IH; lia|reflexivity]. }
  destruct (is_bullet_line (rstrip raw)) eqn:Eb.
  - rewrite bullet_rstrip in Eb. rewrite take_items_run.
    destruct (first_rejected accepts _); cbn [obind fst snd]; [reflexivity|].
    pose proof (after_run_length rest) as Hl.
    apply IH; simpl; rewrite Eb; lia.
  - destruct (accepts _); cbn [obind]; [apply IH; lia|reflexivity].
Qed.

(** The fuel of [scan_lines] is enough. *)
Lemma scan_has_fuel fuel lines flow :
  (length lines < fuel)%nat ->
  scan accepts body h2 h3 fuel lines flow <> OutOfFuel.
Proof.
  revert lines flow. induction fuel as [|fuel IH]; intros lines flow H; [lia|].
  destruct lines as [|raw rest]; [discriminate|].
  simpl in H. cbn [scan]. cbv zeta. unfold new_Paragraph.
  destruct (is_empty (strip (rstrip raw))); [apply IH; lia|].
  destruct (startswith h2_marker (rstrip raw)).
  { destruct (accepts _); cbn [obind]; [apply IH; lia|discriminate]. }
  destruct (startswith h3_marker (rstrip raw)).
  { destruct (accepts _); cbn [obind]; [apply IH; lia|discriminate]. }
  destruct (is_bullet_line (rstrip raw)) eqn:Eb.
  - rewrite bullet_rstrip in Eb. rewrite take_items_run.
    destruct (first_rejected accepts _); cbn [obind fst snd]; [discriminate|].
    pose proof (after_run_length rest) as Hl.
    apply IH; simpl; rewrite Eb; lia.
  - destruct (accepts _); cbn [obind]; [apply IH; lia|discriminate].
Qed.

Lemma scan_lines_has_fuel lines :
  scan_lines accepts body h2 h3 lines <> OutOfFuel.
Proof. apply scan_has_fuel. lia. Qed.

Lemma scan_lines_nil : scan_lines accepts body h2 h3 [] = Return [].
Proof. reflexivity. Qed.

(** One iteration, then the loop from the lines that are left. *)
Lemma scan_step lines' (fl : list (Flowable S)) (rest : list pystr) :
  (length lines' <= length rest)%nat ->
  scan accepts body h2 h3 (Datatypes.S (length rest)) lines' ([] ++ fl) =
  outcome_map (fun r => fl ++ r) (scan_lines accepts body h2 h3 lines').
Proof.
  intros H. simpl app. rewrite scan_acc. unfold scan_lines.
  rewrite (scan_fuel (Datatypes.S (length rest)) (Datatypes.S (length lines')))
    by lia.
  reflexivity.
Qed.

Lemma scan_lines_cons raw rest :
  scan_lines accepts body h2 h3 (raw :: rest) =
  if is_blank_line raw then
    outcome_map (fun r => Spacer 1 6 :: r) (scan_lines accepts body h2 h3 rest)
  else if startswith h2_marker (rstrip raw) then
    if accepts (strip (drop 3 (rstrip raw))) then
      outcome_map (fun r => Paragraph (strip (drop 3 (rstrip raw))) h2 :: r)
                  (scan_lines accepts body h2 h3 rest)
    else Raise (ValueError (strip (drop 3 (rstrip raw))))
  else if startswith h3_marker (rstrip raw) then
    if accepts (strip (drop 4 (rstrip raw))) then
      outcome_map (fun r => Paragraph (strip (drop 4 (rstrip raw))) h3 :: r)
                  (scan_lines accepts body h2 h3 rest)
    else Raise (ValueError (strip (drop 4 (rstrip raw))))
  else if is_bullet_line raw then
    match first_rejected accepts
            (map bullet_text (bullet_run (raw :: rest))) with
    | Some t => Raise (ValueError t)
    | None =>
        outcome_map
          (fun r =>
             ListFlowable
               (map (fun l => mkListItem (bullet_text l) body 12%Z)
                    (bullet_run (raw :: rest)))
               "bullet" [8226] 6%Z :: Spacer 1 4 :: r)
          (scan_lines accepts body h2 h3 (after_run (raw :: rest)))
    end
  else if accepts (rstrip raw) then
    outcome_map (fun r => Paragraph (rstrip raw) body :: r)
                (scan_lines accepts body h2 h3 rest)
  else Raise (ValueError (rstrip raw)).
Proof.
  unfold scan_lines at 1. cbn [scan length]. cbv zeta. unfold new_Paragraph.
  rewrite blank_rstrip, bullet_rstrip.
  destruct (is_blank_line raw); [apply (scan_step _ [_] rest); lia|].
  destruct (startswith h2_marker (rstrip raw)).
  { destruct (accepts _); cbn [obind];
      [apply (scan_step _ [_] rest); lia|reflexivity]. }
  destruct (startswith h3_marker (rstrip raw)).
  { destruct (accepts _); cbn [obind];
      [apply (scan_step _ [_] rest); lia|reflexivity]. }
  destruct (is_bullet_line raw) eqn:Eb.
  - rewrite take_items_run.
    destruct (first_rejected accepts _); cbn [obind fst snd app];
      [reflexivity|].
    apply (scan_step _ [_; _] rest).
    pose proof (after_run_length rest) as Hl. simpl. rewrite Eb. exact Hl.
  - destruct (accepts _); cbn [obind];
      [apply (scan_step _ [_] rest); lia|reflexivity].
Qed.

End ScannerFacts.

(** ** Blocks *)

(** With every text taken, the loop returns. *)
Lemma scan_lines_returns {S} (body h2 h3 : S) lines :
  exists flow, scan_lines (fun _ => true) body h2 h3 lines = Return flow.
Proof.
  induction lines as [|raw rest E [fl IH]|l run rest Hrun Hrest [fl IH]]
    using lines_ind.
  - eexists. reflexivity.
  - rewrite scan_lines_cons, E, IH. cbn [outcome_map obind].
    repeat match goal with
           | |- context [if ?b then _ else _] => destruct b
           end; eexists; reflexivity.
  - destruct (span_run _ _ Hrun Hrest) as [_ Ha].
    simpl in Hrun. apply andb_true_iff in Hrun as [Hl _].
    change ((l :: run) ++ rest) with (l :: (run ++ rest)) in *.
    rewrite scan_lines_cons, first_rejected_all, (bullet_not_blank _ Hl).
    destruct (bullet_not_heading _ Hl) as [-> ->].
    rewrite Hl, Ha, IH. eexists. reflexivity.
Qed.

Lemma blocks_of_lines_total lines : blocks_of_lines lines = Some (blocks lines).
Proof.
  unfold blocks, blocks_of_lines.
  destruct (scan_lines_returns BodySlot H2Slot H3Slot lines) as [fl ->].
  reflexivity.
Qed.

Lemma blocks_nil : blocks [] = [].
Proof. reflexivity. Qed.

Lemma blocks_cons raw rest :
  blocks (raw :: rest) =
  if is_blank_line raw then Blank 6 :: blocks rest
  else if startswith h2_marker (rstrip raw)
  then Heading 2 (strip (drop 3 (rstrip raw))) :: blocks rest
  else if startswith h3_marker (rstrip raw)
  then Heading 3 (strip (drop 4 (rstrip raw))) :: blocks rest
  else if is_bullet_line raw
  then ListBlock (map bullet_text (bullet_run (raw :: rest)))
       :: Blank 4 :: blocks (after_run (raw :: rest))
  else Para (rstrip raw) :: blocks rest.
Proof.
  unfold blocks at 1. unfold blocks_of_lines. rewrite scan_lines_cons.
  rewrite first_rejected_all.
  set (ar := after_run (raw :: rest)). set (br := bullet_run (raw :: rest)).
  destruct (scan_lines_returns BodySlot H2Slot H3Slot rest) as [fl Hr].
  destruct (scan_lines_returns BodySlot H2Slot H3Slot ar) as [fa Ha].
  pose proof (blocks_of_lines_total rest) as Hbr.
  pose proof (blocks_of_lines_total ar) as Hba.
  unfold blocks_of_lines in Hbr, Hba. rewrite Hr in Hbr. rewrite Ha in Hba.
  injection Hbr as Hbr. injection Hba as Hba.
  rewrite Hr, Ha. cbn [outcome_map obind].
  destruct (is_blank_line raw); [cbn; congruence|].
  destruct (startswith h2_marker (rstrip raw)); [cbn; congruence|].
  destruct (startswith h3_marker (rstrip raw)); [cbn; congruence|].
  destruct (is_bullet_line raw); cbn; [|congruence].
  rewrite map_map, Hba. reflexivity.
Qed.

(** A run of bullet lines, met at its first line, becomes one list block and
    one spacer; the scan goes on at the line after the run. *)
Lemma blocks_run l run rest :
  forallb is_bullet_line (l :: run) = true -> starts_with_bullet rest = false ->
  blocks ((l :: run) ++ rest) =
  ListBlock (map bullet_text (l :: run)) :: Blank 4 :: blocks rest.
Proof.
  intros Hrun Hrest.
  destruct (span_run _ _ Hrun Hrest) as [Hb Ha].
  simpl in Hrun. apply andb_true_iff in Hrun as [Hl _].
  change ((l :: run) ++ rest) with (l :: (run ++ rest)) in *.
  rewrite blocks_cons, (bullet_not_blank _ Hl).
  destruct (bullet_not_heading _ Hl) as [-> ->]. rewrite Hl, Hb, Ha.
  reflexivity.
Qed.

Lemma ends_with_bullet_app pre suf :
  suf <> [] -> ends_with_bullet (pre ++ suf) = ends_with_bullet suf.
Proof.
  intros Hne. unfold ends_with_bullet. rewrite last_app.
  destruct (last suf) eqn:E; [reflexivity|].
  apply last_None in E. contradiction.
Qed.

Lemma ends_with_bullet_run run :
  run <> [] -> forallb is_bullet_line run = true -> ends_with_bullet run = true.
Proof.
  intros Hne Hall. unfold ends_with_bullet.
  destruct (last run) as [l|] eqn:E; [|apply last_None in E; contradiction].
  apply last_Some in E as [run' ->].
  rewrite forallb_app in Hall. simpl in Hall.
  apply andb_true_iff in Hall as [_ Hall].
  apply andb_true_iff in Hall as [Hall _]. exact Hall.
Qed.

Lemma starts_with_bullet_app pre suf :
  pre <> [] -> starts_with_bullet (pre ++ suf) = starts_with_bullet pre.
Proof. destruct pre; [contradiction|reflexivity]. Qed.

(** The scan of a document is the scan of its two parts, wherever the cut
    does not fall inside a run of bullet lines. *)
Lemma blocks_app pre suf :
  ends_with_bullet pre && starts_with_bullet suf = false ->
  blocks (pre ++ suf) = blocks pre ++ blocks suf.
Proof.
  revert suf. induction pre as [|raw rest E IH|l run rest Hrun Hrest IH]
    using lines_ind; intros suf Hcut.
  - reflexivity.
  - assert (Hcut' : ends_with_bullet rest && starts_with_bullet suf = false).
    { destruct rest as [|r rest]; [reflexivity|].
      rewrite <- Hcut.
      change (raw :: r :: rest) with ([raw] ++ r :: rest).
      rewrite (ends_with_bullet_app [raw] (r :: rest)) by discriminate.
      reflexivity. }
    simpl app. rewrite !blocks_cons, E, (IH _ Hcut').
    repeat match goal with
           | |- context [if ?b then _ else _] => destruct b
           end; reflexivity.
  - destruct rest as [|r rest].
    + rewrite app_nil_r in *.
      rewrite ends_with_bullet_run in Hcut by (exact Hrun || discriminate).
      simpl in Hcut.
      rewrite (blocks_run l run suf Hrun Hcut).
      rewrite <- (app_nil_r (l :: run)) at 2.
      rewrite (blocks_run l run [] Hrun eq_refl). reflexivity.
    + rewrite ends_with_bullet_app in Hcut by discriminate.
      rewrite <- app_assoc.
      rewrite (blocks_run l run ((r :: rest) ++ suf) Hrun)
        by (rewrite starts_with_bullet_app by discriminate; exact Hrest).
      rewrite (blocks_run l run (r :: rest) Hrun Hrest).
      rewrite (IH suf Hcut). reflexivity.
Qed.

Lemma texts_cons b bs : texts (b :: bs) = block_texts b ++ texts bs.
Proof. reflexivity. Qed.

Lemma texts_app bs1 bs2 : texts (bs1 ++ bs2) = texts bs1 ++ texts bs2.
Proof. unfold texts. rewrite map_app, concat_app. reflexivity. Qed.

Lemma line_text_bullet raw :
  is_bullet_line raw = true -> line_text raw = bullet_text raw.
Proof.
  intros H. unfold line_text.
  destruct (bullet_not_heading _ H) as [-> ->]. rewrite H. reflexivity.
Qed.

Lemma run_texts run :
  forallb is_bullet_line run = true ->
  map line_text (List.filter nonblank run) = map bullet_text run.
Proof.
  induction run as [|l run IH]; [reflexivity|]. simpl.
  intros H. apply andb_true_iff in H as [Hl H].
  unfold nonblank at 1. rewrite (bullet_not_blank _ Hl). simpl.
  rewrite (line_text_bullet _ Hl), (IH H). reflexivity.
Qed.

(** The texts of the blocks are the texts of the lines that are not blank,
    line by line. *)
Lemma blocks_texts lines :
  texts (blocks lines) = map line_text (List.filter nonblank lines).
Proof.
  induction lines as [|raw rest E IH|l run rest Hrun Hrest IH] using lines_ind.
  - reflexivity.
  - rewrite blocks_cons, E. simpl List.filter. unfold nonblank at 1.
    destruct (is_blank_line raw); simpl negb; cbv iota; [exact IH|].
    simpl map. unfold line_text at 1. rewrite E.
    destruct (startswith h2_marker (rstrip raw));
      [rewrite texts_cons, IH; reflexivity|].
    destruct (startswith h3_marker (rstrip raw));
      rewrite texts_cons, IH; reflexivity.
  - rewrite (blocks_run l run rest Hrun Hrest).
    rewrite List.filter_app, map_app, (run_texts _ Hrun).
    rewrite !texts_cons, IH. reflexivity.
Qed.

Lemma blocks_of_lines_eq lines bs :
  blocks_of_lines lines = Some bs <-> blocks lines = bs.
Proof. rewrite blocks_of_lines_total. split; congruence. Qed.

Lemma cut_before_plain pre raw rest :
  is_bullet_line raw = false ->
  ends_with_bullet pre && starts_with_bullet (raw :: rest) = false.
Proof. intros H. simpl. rewrite H. apply andb_false_r. Qed.

(** A line that is not a bullet line gives its own block, whatever is
    around it. *)
Lemma blocks_plain pre raw rest :
  is_bullet_line raw = false ->
  blocks (pre ++ raw :: rest) =
  blocks pre ++
  (if is_blank_line raw then Blank 6
   else if startswith h2_marker (rstrip raw)
   then Heading 2 (strip (drop 3 (rstrip raw)))
   else if startswith h3_marker (rstrip raw)
   then Heading 3 (strip (drop 4 (rstrip raw)))
   else Para (rstrip raw)) :: blocks rest.
Proof.
  intros H. rewrite (blocks_app _ _ (cut_before_plain pre raw rest H)).
  rewrite blocks_cons, H.
  repeat match goal with
         | |- context [if ?b then _ else _] => destruct b
         end; reflexivity.
Qed.

Lemma heading_not_blank p raw :
  startswith (35 :: p) (rstrip raw) = true -> is_blank_line raw = false.
Proof.
  intros H. rewrite is_blank_line_spec, <- all_space_rstrip.
  destruct (rstrip raw) as [|c tl]; [discriminate|].
  cbn [startswith] in H. apply andb_true_iff in H as [H _].
  apply N.eqb_eq in H. subst c. reflexivity.
Qed.

Lemma heading_not_bullet p raw :
  startswith (35 :: p) (rstrip raw) = true -> is_bullet_line raw = false.
Proof.
  intros H. rewrite <- bullet_rstrip.
  apply (startswith_hash_not_bullet p), H.
Qed.

Lemma startswith_spec p s : startswith p s = true <-> exists tl, s = p ++ tl.
Proof.
  revert s. induction p as [|a p IH]; intros s.
  - split; [intros _; exists s; reflexivity|reflexivity].
  - destruct s as [|b s]; cbn [startswith].
    + split; [discriminate|intros [tl H]; discriminate].
    + rewrite andb_true_iff, N.eqb_eq, IH. split.
      * intros [-> [tl ->]]. exists tl. reflexivity.
      * intros [tl H]. injection H as -> ->. split; [reflexivity|].
        exists tl. reflexivity.
Qed.

Lemma h2_not_h3 line :
  startswith h2_marker line = true -> startswith h3_marker line = false.
Proof.
  intros H. apply startswith_spec in H as [tl ->]. reflexivity.
Qed.

(** ** Trimming *)

Lemma lstrip_idem s : lstrip (lstrip s) = lstrip s.
Proof.
  induction s as [|c s IH]; [reflexivity|]. simpl.
  destruct (isspace c) eqn:E; [exact IH|]. simpl. rewrite E. reflexivity.
Qed.

Lemma rstrip_idem s : rstrip (rstrip s) = rstrip s.
Proof. unfold rstrip. rewrite rev_involutive, lstrip_idem. reflexivity. Qed.

Lemma lstrip_rstrip s : lstrip (rstrip s) = rstrip (lstrip s).
Proof.
  induction s as [|c s IH]; [reflexivity|].
  rewrite rstrip_cons. simpl lstrip.
  destruct (isspace c) eqn:Ec.
  - destruct (rstrip s) eqn:E; simpl is_empty; cbv iota beta; simpl andb.
    + apply rstrip_nil_iff in E. rewrite <- all_space_lstrip in E.
      apply rstrip_nil_iff in E. rewrite E. reflexivity.
    + simpl lstrip. rewrite Ec. exact IH.
  - rewrite andb_false_r. simpl lstrip. rewrite Ec, rstrip_cons, Ec, andb_false_r.
    reflexivity.
Qed.

Lemma strip_idem s : strip (strip s) = strip s.
Proof.
  unfold strip. rewrite lstrip_rstrip, lstrip_idem, rstrip_idem. reflexivity.
Qed.

Lemma strip_rstrip s : strip (rstrip s) = strip s.
Proof. unfold strip. rewrite lstrip_rstrip, rstrip_idem. reflexivity. Qed.

Lemma strip_lstrip s : strip (lstrip s) = strip s.
Proof. unfold strip. rewrite lstrip_idem. reflexivity. Qed.

Lemma strip_all_space s : all_space s = true -> strip s = [].
Proof.
  intros H. unfold strip. apply rstrip_nil_iff. rewrite all_space_lstrip. exact H.
Qed.

Lemma lstrip_app_space x y : all_space x = true -> lstrip (x ++ y) = lstrip y.
Proof.
  induction x as [|c x IH]; [reflexivity|]. rewrite all_space_cons.
  intros H. apply andb_true_iff in H as [Hc Hx]. simpl. rewrite Hc.
  apply IH, Hx.
Qed.

Lemma all_space_rev s : all_space (rev s) = all_space s.
Proof.
  induction s as [|c s IH]; [reflexivity|]. simpl rev.
  unfold all_space in *. rewrite forallb_app, IH. simpl.
  rewrite andb_true_r. apply andb_comm.
Qed.

Lemma rstrip_app_space a b : all_space b = true -> rstrip (a ++ b) = rstrip a.
Proof.
  intros H. unfold rstrip. rewrite rev_app_distr, lstrip_app_space; [reflexivity|].
  rewrite all_space_rev. exact H.
Qed.

Lemma strip_nil_all_space s : strip s = [] -> all_space s = true.
Proof.
  unfold strip. intros H. apply rstrip_nil_iff in H.
  rewrite all_space_lstrip in H. exact H.
Qed.

(** After a heading marker and its space, a right-trimmed line still holds
    text. *)
Lemma heading_text_not_empty m raw :
  m = h2_marker \/ m = h3_marker ->
  startswith m (rstrip raw) = true ->
  strip (drop (length m) (rstrip raw)) <> [].
Proof.
  intros Hm H. apply startswith_spec in H as [tl Htl].
  rewrite Htl, drop_app_length. intros Hs. apply strip_nil_all_space in Hs.
  pose proof (rstrip_idem raw) as Hi. rewrite Htl in Hi.
  rewrite (rstrip_app_space m tl Hs) in Hi.
  destruct Hm as [-> | ->]; discriminate Hi.
Qed.

(** ** The text of a line: the code and the specification's words *)

Lemma white_all_space s : white s <-> all_space s = true.
Proof.
  unfold white, all_space.
  rewrite forallb_forall, List.Forall_forall. reflexivity.
Qed.

Lemma marker_not_space m : is_marker m -> isspace m = false.
Proof. intros [-> | [-> | ->]]; reflexivity. Qed.

Lemma lstrip_split s : exists indent, white indent /\ s = indent ++ lstrip s.
Proof.
  induction s as [|c s (indent & Hw & Hs)].
  - exists []. split; [constructor|reflexivity].
  - simpl. destruct (isspace c) eqn:E.
    + exists (c :: indent). split; [constructor; assumption|].
      simpl. f_equal. exact Hs.
    + exists []. split; [constructor|reflexivity].
Qed.

Lemma lstrip_starts s : starts_with_text (lstrip s).
Proof.
  unfold starts_with_text. induction s as [|c s IH]; simpl; [discriminate|].
  destruct (isspace c) eqn:E; [exact IH|]. simpl. intros c' [= <-]. exact E.
Qed.

Lemma rstrip_split s : exists trail, white trail /\ s = rstrip s ++ trail.
Proof.
  induction s as [|c s (trail & Hw & Hs)].
  - exists []. split; [constructor|reflexivity].
  - rewrite rstrip_cons.
    destruct (is_empty (rstrip s) && isspace c) eqn:E.
    + apply andb_true_iff in E as [E Hc]. apply is_empty_true in E.
      exists (c :: s). split; [|reflexivity].
      apply white_all_space. rewrite all_space_cons, Hc.
      apply rstrip_nil_iff, E.
    + exists trail. split; [exact Hw|].
      change ((c :: rstrip s) ++ trail) with (c :: rstrip s ++ trail).
      f_equal. exact Hs.
Qed.

Lemma rstrip_ends s : ends_with_text (rstrip s).
Proof.
  unfold ends_with_text. induction s as [|c s IH].
  - rewrite rstrip_nil. discriminate.
  - rewrite rstrip_cons.
    destruct (rstrip s) as [|x xs] eqn:E; cbn [is_empty].
    + cbn [andb]. destruct (isspace c) eqn:Ec; [discriminate|].
      intros c' [= <-]. exact Ec.
    + rewrite andb_false_l. intros c' H. apply IH. exact H.
Qed.

Lemma rstrip_keeps_head c s :
  isspace c = false -> rstrip (c :: s) = c :: rstrip s.
Proof. intros H. rewrite rstrip_cons, H, andb_false_r. reflexivity. Qed.

Lemma strip_starts s : starts_with_text (strip s).
Proof.
  unfold strip. pose proof (lstrip_starts s) as H.
  unfold starts_with_text in *.
  destruct (lstrip s) as [|c tl]; [rewrite rstrip_nil; discriminate|].
  rewrite (rstrip_keeps_head c tl (H c eq_refl)). exact H.
Qed.

Lemma strip_ends s : ends_with_text (strip s).
Proof. apply rstrip_ends. Qed.

Lemma strip_split s :
  exists pad trail, white pad /\ white trail /\ s = pad ++ strip s ++ trail.
Proof.
  destruct (lstrip_split s) as (pad & Hp & Hs).
  destruct (rstrip_split (lstrip s)) as (trail & Ht & Hl).
  exists pad, trail. split; [exact Hp|]. split; [exact Ht|].
  unfold strip. rewrite <- Hl. exact Hs.
Qed.

Lemma rstrip_fixed t : ends_with_text t -> rstrip t = t.
Proof.
  unfold ends_with_text. induction t as [|c s IH]; [reflexivity|].
  intros H. rewrite rstrip_cons. destruct s as [|x xs].
  - rewrite rstrip_nil, (H c eq_refl), andb_false_r. reflexivity.
  - rewrite (IH H). reflexivity.
Qed.

Lemma lstrip_fixed t : starts_with_text t -> lstrip t = t.
Proof.
  destruct t as [|c tl]; [reflexivity|]. intros H. simpl.
  rewrite (H c eq_refl). reflexivity.
Qed.

Lemma rstrip_text t trail :
  white trail -> ends_with_text t -> rstrip (t ++ trail) = t.
Proof.
  intros Ht He. rewrite rstrip_app_space by (apply white_all_space, Ht).
  apply rstrip_fixed, He.
Qed.

Lemma strip_text pad t trail :
  white pad -> white trail -> starts_with_text t -> ends_with_text t ->
  strip (pad ++ t ++ trail) = t.
Proof.
  intros Hp Ht Hs He. unfold strip.
  rewrite lstrip_app_space by (apply white_all_space, Hp).
  destruct t as [|c tl].
  - apply rstrip_nil_iff. rewrite all_space_lstrip. apply white_all_space, Ht.
  - rewrite lstrip_fixed; [apply rstrip_text; assumption|].
    intros c' [= <-]. apply Hs. reflexivity.
Qed.

Lemma ends_with_text_app a t :
  t <> [] -> ends_with_text t -> ends_with_text (a ++ t).
Proof.
  unfold ends_with_text. intros Hn H c. rewrite last_app.
  destruct (last t) as [y|] eqn:E; [apply H|].
  apply last_None in E. contradiction.
Qed.

Lemma text_not_white t : t <> [] -> ends_with_text t -> all_space t = false.
Proof.
  intros Hn He. destruct (all_space t) eqn:E; [|reflexivity].
  apply rstrip_nil_iff in E. rewrite (rstrip_fixed t He) in E. contradiction.
Qed.

Lemma bullet_begins s : is_bullet_line s = true <-> begins_with_bullet s.
Proof.
  rewrite is_bullet_line_head. split.
  - intros H. destruct (lstrip_split s) as (indent & Hw & Hs).
    destruct (lstrip s) as [|c rest]; [discriminate|]. cbn [head] in H.
    exists indent, c, rest. split; [exact Hw|]. split; [|exact Hs].
    apply orb_true_iff in H as [H|H]; [apply orb_true_iff in H as [H|H]|];
      apply N.eqb_eq in H; unfold is_marker; tauto.
  - intros (indent & m & rest & Hw & Hm & ->).
    rewrite lstrip_app_space by (apply white_all_space, Hw).
    simpl lstrip. rewrite (marker_not_space m Hm). cbn [head].
    destruct Hm as [-> | [-> | ->]]; reflexivity.
Qed.

(** The text the loop takes from a line that is not blank is the text the
    specification gives the line. *)
Lemma line_text_spec raw :
  all_space raw = false -> line_has_text raw (line_text raw).
Proof.
  intros Hraw. unfold line_text.
  destruct (rstrip_split raw) as (trail & Ht & Hr).
  destruct (startswith h2_marker (rstrip raw)) eqn:H2;
    [|destruct (startswith h3_marker (rstrip raw)) eqn:H3;
      [|destruct (is_bullet_line raw) eqn:Hb]].
  - pose proof (heading_text_not_empty h2_marker raw (or_introl eq_refl) H2)
      as Hn.
    apply startswith_spec in H2 as [tl Htl]. rewrite Htl in Hn |- *.
    change (drop 3 (h2_marker ++ tl)) with tl.
    change (drop (length h2_marker) (h2_marker ++ tl)) with tl in Hn.
    destruct (strip_split tl) as (pad & trail' & Hp & Ht' & Hs).
    replace raw with ([35; 35; 32] ++ pad ++ strip tl ++ (trail' ++ trail)).
    + apply heading2_text; auto using strip_starts, strip_ends.
      apply Forall_app; split; assumption.
    + rewrite Hr, Htl. rewrite Hs at 2. unfold h2_marker.
      rewrite <- !app_assoc. reflexivity.
  - pose proof (heading_text_not_empty h3_marker raw (or_intror eq_refl) H3)
      as Hn.
    apply startswith_spec in H3 as [tl Htl]. rewrite Htl in Hn |- *.
    change (drop 4 (h3_marker ++ tl)) with tl.
    change (drop (length h3_marker) (h3_marker ++ tl)) with tl in Hn.
    destruct (strip_split tl) as (pad & trail' & Hp & Ht' & Hs).
    replace raw with ([35; 35; 35; 32] ++ pad ++ strip tl ++ (trail' ++ trail)).
    + apply heading3_text; auto using strip_starts, strip_ends.
      apply Forall_app; split; assumption.
    + rewrite Hr, Htl. rewrite Hs at 2. unfold h3_marker.
      rewrite <- !app_assoc. reflexivity.
  - apply bullet_begins in Hb as (indent & m & rest & Hw & Hm & Hs).
    unfold bullet_text. rewrite Hs.
    rewrite lstrip_app_space by (apply white_all_space, Hw).
    simpl lstrip. rewrite (marker_not_space m Hm).
    change (drop 1 (m :: rest)) with rest.
    destruct (strip_split rest) as (pad & trail' & Hp & Ht' & Hs').
    rewrite Hs' at 1.
    apply bullet_line_text; auto using strip_starts, strip_ends.
  - rewrite Hr at 1. apply plain_line_text.
    + exact Ht.
    + apply rstrip_ends.
    + intros E. apply rstrip_nil_iff in E. congruence.
    + intros rest E.
      assert (H : startswith h2_marker (rstrip raw) = true)
        by (apply startswith_spec; exists rest; exact E).
      congruence.
    + intros rest E.
      assert (H : startswith h3_marker (rstrip raw) = true)
        by (apply startswith_spec; exists rest; exact E).
      congruence.
    + intros H. apply bullet_begins in H. rewrite bullet_rstrip in H.
      congruence.
Qed.

(** The specification gives a line one text only, the one the loop takes,
    and gives a blank line none. *)
Lemma line_has_text_code raw t :
  line_has_text raw t -> all_space raw = false /\ line_text raw = t.
Proof.
  intros H. destruct H as [pad t trail Hp Ht Hs He Hn
                          |pad t trail Hp Ht Hs He Hn
                          |indent m pad t trail Hi Hm Hp Ht Hs He
                          |t trail Ht He Hn H2 H3 Hb].
  - split; [reflexivity|]. unfold line_text.
    replace ([35; 35; 32] ++ pad ++ t ++ trail)
      with (([35; 35; 32] ++ pad ++ t) ++ trail)
      by (rewrite <- !app_assoc; reflexivity).
    rewrite rstrip_text by
      (try assumption;
       rewrite app_assoc; apply ends_with_text_app; assumption).
    change (startswith h2_marker ([35; 35; 32] ++ pad ++ t)) with true.
    cbv iota. change (drop 3 ([35; 35; 32] ++ pad ++ t)) with (pad ++ t).
    rewrite <- (app_nil_r t) at 1. apply strip_text; try assumption.
    constructor.
  - split; [reflexivity|]. unfold line_text.
    replace ([35; 35; 35; 32] ++ pad ++ t ++ trail)
      with (([35; 35; 35; 32] ++ pad ++ t) ++ trail)
      by (rewrite <- !app_assoc; reflexivity).
    rewrite rstrip_text by
      (try assumption;
       rewrite app_assoc; apply ends_with_text_app; assumption).
    change (startswith h2_marker ([35; 35; 35; 32] ++ pad ++ t)) with false.
    change (startswith h3_marker ([35; 35; 35; 32] ++ pad ++ t)) with true.
    cbv iota. change (drop 4 ([35; 35; 35; 32] ++ pad ++ t)) with (pad ++ t).
    rewrite <- (app_nil_r t) at 1. apply strip_text; try assumption.
    constructor.
  - assert (Hb : is_bullet_line (indent ++ m :: pad ++ t ++ trail) = true)
      by (apply bullet_begins; exists indent, m, (pad ++ t ++ trail); auto).
    split.
    + rewrite <- is_blank_line_spec. apply bullet_not_blank, Hb.
    + unfold line_text. destruct (bullet_not_heading _ Hb) as [-> ->].
      rewrite Hb. unfold bullet_text.
      rewrite lstrip_app_space by (apply white_all_space, Hi).
      simpl lstrip. rewrite (marker_not_space m Hm).
      change (drop 1 (m :: pad ++ t ++ trail)) with (pad ++ t ++ trail).
      apply strip_text; assumption.
  - split.
    + rewrite <- all_space_rstrip, (rstrip_text t trail Ht He).
      apply text_not_white; assumption.
    + unfold line_text. rewrite <- bullet_rstrip, (rstrip_text t trail Ht He).
      destruct (startswith h2_marker t) eqn:E2;
        [apply startswith_spec in E2 as [tl E]; destruct (H2 tl E)|].
      destruct (startswith h3_marker t) eqn:E3;
        [apply startswith_spec in E3 as [tl E]; destruct (H3 tl E)|].
      destruct (is_bullet_line t) eqn:E; [|reflexivity].
      apply bullet_begins in E. contradiction.
Qed.

Lemma text_lines_nonblank lines : text_lines lines = List.filter nonblank lines.
Proof.
  unfold text_lines. apply List.filter_ext. intros l.
  unfold nonblank. rewrite is_blank_line_spec. reflexivity.
Qed.

(** The texts the loop takes are, line by line, the texts the specification
    gives the lines that are not blank, and no other list of texts is. *)
Lemma line_texts_spec lines :
  Forall2 line_has_text (text_lines lines) (map line_text (text_lines lines)) /\
  forall ts, Forall2 line_has_text (text_lines lines) ts ->
             ts = map line_text (text_lines lines).
Proof.
  split.
  - unfold text_lines. induction lines as [|l lines IH]; [constructor|].
    simpl. destruct (all_space l) eqn:E; simpl; [exact IH|].
    constructor; [apply line_text_spec, E|exact IH].
  - intros ts H. induction H as [|l t ls ts Hl _ IH]; [reflexivity|].
    simpl. f_equal; [|exact IH].
    symmetry. apply (line_has_text_code l t Hl).
Qed.

(** ** The loop with ReportLab's parser *)

Lemma flow_texts_of {S} (body h2 h3 : S) bs :
  flow_texts (map (flowable_of body h2 h3) bs) = texts bs.
Proof.
  unfold flow_texts, texts. rewrite map_map. f_equal.
  apply map_ext. intros [h|level t|items|t]; try reflexivity.
  cbn [flowable_of flowable_texts block_texts]. rewrite map_map.
  apply map_id.
Qed.

(** What the loop gives, for any parser: it raises on the first text the
    parser refuses, in the order of the blocks and their items, and returns
    the flowables of the blocks when the parser refuses none. *)
Lemma scan_lines_outcome {S} accepts (body h2 h3 : S) lines :
  scan_lines accepts body h2 h3 lines =
  match first_rejected accepts (texts (blocks lines)) with
  | Some t => Raise (ValueError t)
  | None => Return (map (flowable_of body h2 h3) (blocks lines))
  end.
Proof.
  induction lines as [|raw rest E IH|l run rest Hrun Hrest IH] using lines_ind.
  - reflexivity.
  - rewrite scan_lines_cons, blocks_cons, E, IH.
    destruct (is_blank_line raw);
      [|destruct (startswith h2_marker (rstrip raw));
        [|destruct (startswith h3_marker (rstrip raw))]];
      rewrite texts_cons; cbn [block_texts app];
      try rewrite first_rejected_cons;
      repeat match goal with
             | |- context [if accepts ?t then _ else _] => destruct (accepts t)
             | |- context [first_rejected accepts ?ts] =>
                 destruct (first_rejected accepts ts)
             end; reflexivity.
  - assert (Hl : is_bullet_line l = true)
      by (simpl in Hrun; apply andb_true_iff in Hrun; tauto).
    rewrite (blocks_run l run rest Hrun Hrest).
    change ((l :: run) ++ rest) with (l :: run ++ rest).
    rewrite scan_lines_cons.
    rewrite (bullet_not_blank _ Hl), Hl.
    destruct (bullet_not_heading _ Hl) as [-> ->].
    change (l :: run ++ rest) with ((l :: run) ++ rest).
    destruct (span_run (l :: run) rest Hrun Hrest) as [-> ->].
    rewrite IH, !texts_cons. cbn [block_texts app].
    rewrite first_rejected_app.
    destruct (first_rejected accepts (map bullet_text (l :: run)));
      [reflexivity|].
    destruct (first_rejected accepts (texts (blocks rest))); [reflexivity|].
    unfold outcome_map. cbn [obind map flowable_of]. rewrite map_map.
    reflexivity.
Qed.

(** ** The claims about the classifier *)

(** C7. The scenario document classifies as the six blocks Heading 2
    "Trip Overview", Paragraph "Sample text.", Blank, Heading 3 "Day 1",
    ListBlock ["Museum visit"; "Coffee break"], Blank, in this order. *)
Theorem scenario_blocks :
  buildBlocks scenario_text =
  Some [Heading 2 (py "Trip Overview"); Para (py "Sample text."); Blank 6;
        Heading 3 (py "Day 1");
        ListBlock [py "Museum visit"; py "Coffee break"]; Blank 4].
Proof. vm_compute. reflexivity. Qed.

(** C2. When the scan meets a bullet line (the lines before it do not end in
    a bullet line), it takes the whole run of bullet lines up to the first
    line that is not one, makes one [ListBlock] of their texts, each the line
    without its leading white space, its one marker character and the white
    space around what is left, and one [Blank] spacer after it, and goes on
    with the line after the run.  When that line is blank and a second run
    follows it, the second run is a list block of its own, after the blank
    line's own [Blank]. *)
Theorem bullet_run_is_one_list pre l run rest bs_pre bs_rest :
  forallb is_bullet_line (l :: run) = true ->
  ends_with_bullet pre = false ->
  starts_with_bullet rest = false ->
  blocks_of_lines pre = Some bs_pre ->
  blocks_of_lines rest = Some bs_rest ->
  blocks_of_lines (pre ++ (l :: run) ++ rest) =
    Some (bs_pre ++ ListBlock (map bullet_text (l :: run)) :: Blank 4 :: bs_rest)
  /\ forall gap l2 run2 rest2 bs2,
      rest = gap :: (l2 :: run2) ++ rest2 ->
      is_blank_line gap = true ->
      forallb is_bullet_line (l2 :: run2) = true ->
      starts_with_bullet rest2 = false ->
      blocks_of_lines rest2 = Some bs2 ->
      bs_rest =
      Blank 6 :: ListBlock (map bullet_text (l2 :: run2)) :: Blank 4 :: bs2.
Proof.
  intros Hrun Hpre Hrest Hbp Hbr.
  apply blocks_of_lines_eq in Hbp, Hbr. subst bs_pre bs_rest. split.
  - apply blocks_of_lines_eq. rewrite blocks_app by (rewrite Hpre; reflexivity).
    rewrite (blocks_run l run rest Hrun Hrest). reflexivity.
  - intros gap l2 run2 rest2 bs2 -> Hgap Hrun2 Hrest2 Hb2.
    apply blocks_of_lines_eq in Hb2. subst bs2.
    rewrite blocks_cons, Hgap.
    rewrite (blocks_run l2 run2 rest2 Hrun2 Hrest2). reflexivity.
Qed.

Lemma bullet_run_is_one_list_witness :
  blocks_of_lines (ex_pre ++ ex_run ++ ex_rest) =
  Some ([Para (py "Plan:")] ++
        ListBlock [py "Museum visit"; py "Coffee break"] :: Blank 4 ::
        [Blank 6; ListBlock [py "Walk"]; Blank 4; Para (py "Done.")]).
Proof.
  apply (bullet_run_is_one_list ex_pre (py "- Museum visit")
           [py "   * Coffee break"] ex_rest); vm_compute; reflexivity.
Defined.

(** C3. A line gives [Heading 2] exactly when, trailing white space aside, it
    starts with "## ", and [Heading 3] exactly when it starts with "### ";
    the heading's text is what follows the marker, without the white space
    around it.  A line that starts with "##" but with neither marker-and-space
    gives a plain paragraph holding the whole line. *)
Theorem heading_needs_marker_and_space pre raw rest bs_pre bs_rest :
  blocks_of_lines pre = Some bs_pre ->
  blocks_of_lines rest = Some bs_rest ->
  (startswith h2_marker (rstrip raw) = true ->
   blocks_of_lines (pre ++ raw :: rest) =
   Some (bs_pre ++ Heading 2 (strip (drop 3 (rstrip raw))) :: bs_rest)) /\
  (startswith h3_marker (rstrip raw) = true ->
   blocks_of_lines (pre ++ raw :: rest) =
   Some (bs_pre ++ Heading 3 (strip (drop 4 (rstrip raw))) :: bs_rest)) /\
  (startswith h2_marker (rstrip raw) = false ->
   startswith h3_marker (rstrip raw) = false ->
   exists b bs, blocks_of_lines (raw :: rest) = Some (b :: bs) /\
                is_heading b = false) /\
  (startswith [35; 35] (rstrip raw) = true ->
   startswith h2_marker (rstrip raw) = false ->
   startswith h3_marker (rstrip raw) = false ->
   blocks_of_lines (pre ++ raw :: rest) =
   Some (bs_pre ++ Para (rstrip raw) :: bs_rest)).
Proof.
  intros Hbp Hbr. apply blocks_of_lines_eq in Hbp, Hbr. subst bs_pre bs_rest.
  repeat split.
  - intros H2. apply blocks_of_lines_eq.
    rewrite (blocks_plain _ _ _ (heading_not_bullet _ _ H2)).
    rewrite (heading_not_blank _ _ H2), H2. reflexivity.
  - intros H3. apply blocks_of_lines_eq.
    rewrite (blocks_plain _ _ _ (heading_not_bullet _ _ H3)).
    rewrite (heading_not_blank _ _ H3), H3.
    destruct (startswith h2_marker (rstrip raw)) eqn:H2; [|reflexivity].
    apply h2_not_h3 in H2. congruence.
  - intros H2 H3. rewrite blocks_of_lines_total, blocks_cons, H2, H3.
    destruct (is_blank_line raw); [eexists _, _; split; reflexivity|].
    destruct (is_bullet_line raw); eexists _, _; split; reflexivity.
  - intros Hm H2 H3. apply blocks_of_lines_eq.
    rewrite (blocks_plain _ _ _ (heading_not_bullet _ _ Hm)).
    rewrite (heading_not_blank _ _ Hm), H2, H3. reflexivity.
Qed.

Lemma heading_needs_marker_and_space_witness :
  blocks_of_lines (ex_pre ++ py "## Trip Overview  " :: ex_rest) =
  Some ([Para (py "Plan:")] ++ Heading 2 (py "Trip Overview") ::
        [Blank 6; ListBlock [py "Walk"]; Blank 4; Para (py "Done.")])
  /\ blocks_of_lines (ex_pre ++ py "###  Day 1" :: ex_rest) =
     Some ([Para (py "Plan:")] ++ Heading 3 (py "Day 1") ::
           [Blank 6; ListBlock [py "Walk"]; Blank 4; Para (py "Done.")])
  /\ blocks_of_lines (ex_pre ++ py "##Trip" :: ex_rest) =
     Some ([Para (py "Plan:")] ++ Para (py "##Trip") ::
           [Blank 6; ListBlock [py "Walk"]; Blank 4; Para (py "Done.")]).
Proof.
  split; [|split].
  - apply (heading_needs_marker_and_space ex_pre (py "## Trip Overview  ")
             ex_rest); vm_compute; reflexivity.
  - apply (heading_needs_marker_and_space ex_pre (py "###  Day 1") ex_rest);
      vm_compute; reflexivity.
  - apply (heading_needs_marker_and_space ex_pre (py "##Trip") ex_rest);
      vm_compute; reflexivity.
Defined.

(** A heading marker with nothing after it loses its space with the trailing
    white space, and the line is a plain paragraph. *)
Example heading_marker_alone :
  blocks_of_lines [py "## "] = Some [Para (py "##")].
Proof. vm_compute. reflexivity. Qed.

Lemma blocks_run_ne run rest :
  run <> [] ->
  forallb is_bullet_line run = true -> starts_with_bullet rest = false ->
  blocks (run ++ rest) = ListBlock (map bullet_text run) :: Blank 4 :: blocks rest.
Proof. destruct run as [|l run]; [contradiction|]. intros _. apply blocks_run. Qed.

(** Every list of lines is a part that does not end in a bullet line followed
    by a run of bullet lines. *)
Lemma split_trailing_run (lines : list pystr) :
  exists pre run,
    lines = pre ++ run /\ ends_with_bullet pre = false /\
    forallb is_bullet_line run = true.
Proof.
  induction lines as [|l lines IH] using rev_ind.
  - exists [], []. repeat split.
  - destruct (is_bullet_line l) eqn:E.
    + destruct IH as (pre & run & -> & Hpre & Hrun).
      exists pre, (run ++ [l]). rewrite app_assoc. repeat split; [exact Hpre|].
      rewrite forallb_app, Hrun. simpl. rewrite E. reflexivity.
    + exists (lines ++ [l]), []. rewrite app_nil_r. repeat split.
      unfold ends_with_bullet. rewrite last_snoc. exact E.
Qed.

(** C9. A line that holds a bullet marker and nothing else is an item with
    the empty text in the list block of its run, at the place of the line
    among the texts of the document. *)
Theorem empty_bullet_is_kept pre raw post :
  marker_only raw = true ->
  exists bs1 items1 items2 bs2,
    blocks_of_lines (pre ++ raw :: post) =
      Some (bs1 ++ ListBlock (items1 ++ [] :: items2) :: bs2) /\
    texts bs1 ++ items1 = map line_text (List.filter nonblank pre).
Proof.
  unfold marker_only. intros H. apply andb_true_iff in H as [Hb He].
  apply is_empty_true in He.
  destruct (split_trailing_run pre) as (pre' & r1 & -> & Hpre & Hr1).
  pose proof (bullet_run_after_run post) as Hpost.
  pose proof (bullet_run_all post) as Hr2.
  pose proof (after_run_start post) as Hafter.
  exists (blocks pre'), (map bullet_text r1),
    (map bullet_text (bullet_run post)), (Blank 4 :: blocks (after_run post)).
  split.
  - apply blocks_of_lines_eq.
    rewrite <- Hpost at 1.
    replace ((pre' ++ r1) ++ raw :: bullet_run post ++ after_run post)
      with (pre' ++ (r1 ++ raw :: bullet_run post) ++ after_run post)
      by (rewrite <- !app_assoc; reflexivity).
    rewrite blocks_app by (rewrite Hpre; reflexivity).
    rewrite blocks_run_ne.
    + rewrite map_app. simpl map.
      change (bullet_text raw) with (strip (drop 1 (lstrip raw))).
      rewrite He. reflexivity.
    + destruct r1; discriminate.
    + rewrite forallb_app, Hr1. simpl. rewrite Hb, Hr2. reflexivity.
    + exact Hafter.
  - rewrite List.filter_app, map_app, blocks_texts, (run_texts _ Hr1).
    reflexivity.
Qed.

Lemma empty_bullet_is_kept_witness :
  exists bs1 items1 items2 bs2,
    blocks_of_lines ((ex_pre ++ [py "- Museum visit"]) ++ py " * " :: ex_rest) =
      Some (bs1 ++ ListBlock (items1 ++ [] :: items2) :: bs2) /\
    texts bs1 ++ items1 =
    map line_text (List.filter nonblank (ex_pre ++ [py "- Museum visit"])).
Proof.
  apply (empty_bullet_is_kept (ex_pre ++ [py "- Museum visit"]) (py " * ")
           ex_rest).
  vm_compute. reflexivity.
Defined.

Lemma space_not_hash c tl p :
  isspace c = true -> startswith (35 :: p) (rstrip (c :: tl)) = false.
Proof.
  intros Hc. rewrite rstrip_cons.
  destruct (is_empty (rstrip tl) && isspace c); [reflexivity|].
  cbn [startswith].
  destruct (35 =? c) eqn:E; [|reflexivity].
  apply N.eqb_eq in E. subst c. discriminate.
Qed.

(** C10. A line whose first character is white space never gives a heading,
    also when a heading marker and a space follow the white space: it is a
    blank, an item of a list block when its first character after the white
    space is a bullet marker, and otherwise a plain paragraph holding the
    line with its leading white space. *)
Theorem indented_line_is_no_heading pre c tl rest bs_pre bs_rest :
  isspace c = true ->
  blocks_of_lines pre = Some bs_pre ->
  blocks_of_lines rest = Some bs_rest ->
  (is_blank_line (c :: tl) = true ->
   blocks_of_lines (pre ++ (c :: tl) :: rest) =
   Some (bs_pre ++ Blank 6 :: bs_rest)) /\
  (is_blank_line (c :: tl) = false -> is_bullet_line (c :: tl) = false ->
   blocks_of_lines (pre ++ (c :: tl) :: rest) =
   Some (bs_pre ++ Para (rstrip (c :: tl)) :: bs_rest)) /\
  (is_bullet_line (c :: tl) = true ->
   exists items bs,
     blocks_of_lines ((c :: tl) :: rest) =
     Some (ListBlock (bullet_text (c :: tl) :: items) :: Blank 4 :: bs)) /\
  (exists b bs,
     blocks_of_lines ((c :: tl) :: rest) = Some (b :: bs) /\
     is_heading b = false).
Proof.
  intros Hc Hbp Hbr. apply blocks_of_lines_eq in Hbp, Hbr. subst bs_pre bs_rest.
  pose proof (space_not_hash c tl [35; 32] Hc) as H2.
  pose proof (space_not_hash c tl [35; 35; 32] Hc) as H3.
  change (startswith h2_marker (rstrip (c :: tl)) = false) in H2.
  change (startswith h3_marker (rstrip (c :: tl)) = false) in H3.
  repeat split.
  - intros Hb. apply blocks_of_lines_eq.
    assert (Hn : is_bullet_line (c :: tl) = false).
    { destruct (is_bullet_line (c :: tl)) eqn:E; [|reflexivity].
      apply bullet_not_blank in E. congruence. }
    rewrite (blocks_plain _ _ _ Hn), Hb. reflexivity.
  - intros Hb Hn. apply blocks_of_lines_eq.
    rewrite (blocks_plain _ _ _ Hn), Hb, H2, H3. reflexivity.
  - intros Hb. rewrite blocks_of_lines_total, blocks_cons.
    rewrite (bullet_not_blank _ Hb), H2, H3, Hb.
    cbn [bullet_run]. rewrite Hb. eexists _, _. reflexivity.
  - rewrite blocks_of_lines_total, blocks_cons, H2, H3.
    destruct (is_blank_line (c :: tl)); [eexists _, _; split; reflexivity|].
    destruct (is_bullet_line (c :: tl)); eexists _, _; split; reflexivity.
Qed.

Lemma indented_line_is_no_heading_witness :
  blocks_of_lines (ex_pre ++ py "  ## Trip Overview" :: ex_rest) =
  Some ([Para (py "Plan:")] ++ Para (py "  ## Trip Overview") ::
        [Blank 6; ListBlock [py "Walk"]; Blank 4; Para (py "Done.")])
  /\ exists items bs,
      blocks_of_lines (py "  - ## Trip" :: ex_rest) =
      Some (ListBlock (py "## Trip" :: items) :: Blank 4 :: bs).
Proof.
  split.
  - apply (indented_line_is_no_heading ex_pre 32 (py " ## Trip Overview")
             ex_rest); vm_compute; reflexivity.
  - apply (indented_line_is_no_heading ex_pre 32 (py " - ## Trip") ex_rest
             (blocks ex_pre) (blocks ex_rest)); vm_compute; reflexivity.
Defined.

(** ** Styles *)

(** With the three styles present, [markdown_to_flowables] is the loop run
    with the body style and the two derived heading styles: it raises on the
    first text of the document that ReportLab refuses, and returns the
    flowables of the blocks when there is none. *)
Lemma markdown_to_flowables_ok accepts md styles body p2 p3 :
  styles !! "BodyText" = Some body ->
  styles !! "Heading2" = Some p2 ->
  styles !! "Heading3" = Some p3 ->
  markdown_to_flowables accepts md styles =
  match first_rejected accepts (texts (blocks (splitlines md))) with
  | Some t => Raise (ValueError t)
  | None =>
      Return (map (flowable_of body
                     (derive "H2" p2 None (Some 12%Z) (Some 6%Z))
                     (derive "H3" p3 None (Some 8%Z) (Some 4%Z)))
                  (blocks (splitlines md)))
  end.
Proof.
  intros Hb H2 H3. unfold markdown_to_flowables, getitem.
  rewrite Hb, H2, H3. cbn [obind]. apply scan_lines_outcome.
Qed.

Lemma style_key_cases b k :
  style_key b = Some k -> k = "BodyText" \/ k = "Heading2" \/ k = "Heading3".
Proof.
  destruct b as [h|lvl t|items|t]; simpl; intros H; try discriminate;
    injection H as <-; [|tauto..].
  destruct (lvl =? 2)%Z; tauto.
Qed.

(** A style the scan needs and the stylesheet lacks stops
    [markdown_to_flowables] with a [KeyError] for a name that is missing. *)
Lemma markdown_to_flowables_missing accepts md styles k :
  k = "BodyText" \/ k = "Heading2" \/ k = "Heading3" ->
  styles !! k = None ->
  exists k', styles !! k' = None /\
             markdown_to_flowables accepts md styles = Raise (KeyError k').
Proof.
  intros Hk Hnone. unfold markdown_to_flowables, getitem.
  destruct (styles !! "BodyText") as [body|] eqn:Eb;
    [|exists "BodyText"; split; [exact Eb|reflexivity]].
  destruct (styles !! "Heading2") as [p2|] eqn:E2;
    [|exists "Heading2"; split; [exact E2|reflexivity]].
  destruct (styles !! "Heading3") as [p3|] eqn:E3;
    [|exists "Heading3"; split; [exact E3|reflexivity]].
  destruct Hk as [->|[->| ->]]; congruence.
Qed.

(** The three lookups, one after the other. *)
Lemma markdown_to_flowables_lookups accepts md styles :
  (exists k, styles !! k = None /\
             (k = "BodyText" \/ k = "Heading2" \/ k = "Heading3") /\
             markdown_to_flowables accepts md styles = Raise (KeyError k)) \/
  (exists body p2 p3,
      styles !! "BodyText" = Some body /\
      styles !! "Heading2" = Some p2 /\
      styles !! "Heading3" = Some p3).
Proof.
  unfold markdown_to_flowables, getitem.
  destruct (styles !! "BodyText") as [body|] eqn:Eb;
    [|left; exists "BodyText"; auto].
  destruct (styles !! "Heading2") as [p2|] eqn:E2;
    [|left; exists "Heading2"; auto].
  destruct (styles !! "Heading3") as [p3|] eqn:E3;
    [|left; exists "Heading3"; auto].
  right. eauto 7.
Qed.

Lemma markdown_to_flowables_return accepts md styles flow :
  markdown_to_flowables accepts md styles = Return flow ->
  exists body p2 p3,
    styles !! "BodyText" = Some body /\
    styles !! "Heading2" = Some p2 /\
    styles !! "Heading3" = Some p3 /\
    first_rejected accepts (texts (blocks (splitlines md))) = None /\
    flow = map (flowable_of body
                  (derive "H2" p2 None (Some 12%Z) (Some 6%Z))
                  (derive "H3" p3 None (Some 8%Z) (Some 4%Z)))
               (blocks (splitlines md)).
Proof.
  intros H.
  destruct (markdown_to_flowables_lookups accepts md styles)
    as [(k & _ & _ & Hk)|(body & p2 & p3 & Hb & H2 & H3)]; [congruence|].
  rewrite (markdown_to_flowables_ok accepts md styles body p2 p3 Hb H2 H3) in H.
  destruct (first_rejected accepts (texts (blocks (splitlines md))));
    [discriminate|].
  injection H as <-. exists body, p2, p3. auto.
Qed.

Lemma markdown_to_flowables_raise accepts md styles e :
  markdown_to_flowables accepts md styles = Raise e ->
  (exists k, e = KeyError k /\ styles !! k = None) \/
  (exists t, e = ValueError t /\
             first_rejected accepts (texts (blocks (splitlines md))) = Some t).
Proof.
  intros H.
  destruct (markdown_to_flowables_lookups accepts md styles)
    as [(k & Hn & _ & Hk)|(body & p2 & p3 & Hb & H2 & H3)].
  - rewrite Hk in H. injection H as <-. left. eauto.
  - rewrite (markdown_to_flowables_ok accepts md styles body p2 p3 Hb H2 H3)
      in H.
    destruct (first_rejected accepts (texts (blocks (splitlines md))))
      as [t|]; [|discriminate].
    injection H as <-. right. eauto.
Qed.

(** ** The claims about the texts and about termination *)



(** C4, as the specification has it, fails: the loop makes a ReportLab
    paragraph of every heading, paragraph and list item, and ReportLab raises
    [ValueError] for a text it cannot read as markup.  With a parser that
    refuses a "<b>" that is not closed, the one-line document "a <b>bold"
    stops the function with that error. *)
Lemma unclosed_tag_raises :
  ex_accepts (py "a <b>bold") = false /\
  markdown_to_flowables ex_accepts (py "a <b>bold") sample_styles =
  Raise (ValueError (py "a <b>bold")).
Proof. split; vm_compute; reflexivity. Qed.

(** C4, as the code has it.  The loop ends for every text, within one test
    of the loop condition per line and one more, and with the same result
    for any larger bound.  It returns the flowables of the blocks when
    ReportLab accepts every text of the document, and raises [ValueError]
    for the first text ReportLab refuses otherwise; read as plain blocks,
    where no text is refused, it returns for every text.  The empty text
    gives the empty sequence. *)
Theorem loop_ends_and_raises_on_refused_text
    {S} (accepts : pystr -> bool) (body h2 h3 : S) (sourceText : pystr) :
  (exists bs,
      buildBlocks sourceText = Some bs /\
      scan_lines accepts body h2 h3 (splitlines sourceText) =
      match first_rejected accepts (texts bs) with
      | Some t => Raise (ValueError t)
      | None => Return (map (flowable_of body h2 h3) bs)
      end) /\
  (forall extra,
      scan accepts body h2 h3
        (Datatypes.S (length (splitlines sourceText)) + extra)
        (splitlines sourceText) [] =
      scan_lines accepts body h2 h3 (splitlines sourceText)) /\
  scan_lines accepts body h2 h3 (splitlines []) = Return [] /\
  buildBlocks [] = Some [].
Proof.
  split; [|split; [|split]].
  - exists (blocks (splitlines sourceText)).
    split; [apply blocks_of_lines_total|apply scan_lines_outcome].
  - intros extra. unfold scan_lines. apply scan_fuel; lia.
  - reflexivity.
  - reflexivity.
Qed.

(** ** The claims about [write_pdf] *)

(** C6. When a block of the document needs a style the stylesheet has no
    entry for (list blocks and paragraphs need "BodyText", headings
    "Heading2" and "Heading3", blanks none), [markdown_to_flowables] raises
    [KeyError], the stylesheet's lookup error, for a missing name, and so does
    [write_pdf], before the document builder is called: the files are as they
    were and no flowable is returned. *)
Theorem missing_style_raises build accepts styles now md filename fs bs b k :
  buildBlocks md = Some bs ->
  In b bs ->
  style_key b = Some k ->
  styles !! k = None ->
  (exists k', styles !! k' = None /\
              markdown_to_flowables accepts md styles = Raise (KeyError k')) /\
  (exists k', styles !! k' = None /\
              write_pdf build accepts styles now md filename fs =
              (Raise (KeyError k'), fs)).
Proof.
  intros _ _ Hk Hnone. apply style_key_cases in Hk.
  destruct (markdown_to_flowables_missing accepts md styles k Hk Hnone)
    as (k' & Hk' & Hm).
  split; [exists k'; split; assumption|].
  unfold write_pdf, getitem.
  destruct (styles !! "Title") as [ttl|] eqn:Et;
    [|exists "Title"; split; [exact Et|reflexivity]].
  destruct (styles !! "Normal") as [normal|] eqn:En;
    [|exists "Normal"; split; [exact En|reflexivity]].
  exists k'. split; [exact Hk'|]. cbn [obind]. rewrite Hm. reflexivity.
Qed.

Lemma missing_style_raises_witness :
  (exists k', styles_without_body !! k' = None /\
              markdown_to_flowables ex_accepts scenario_text
                styles_without_body =
              Raise (KeyError k')) /\
  (exists k', styles_without_body !! k' = None /\
              write_pdf (direct_build 1000) ex_accepts styles_without_body
                ex_now scenario_text "travel_plan.pdf" ∅ =
              (Raise (KeyError k'), ∅)).
Proof.
  apply (missing_style_raises (direct_build 1000) ex_accepts
           styles_without_body ex_now
           scenario_text "travel_plan.pdf" ∅
           [Heading 2 (py "Trip Overview"); Para (py "Sample text."); Blank 6;
            Heading 3 (py "Day 1");
            ListBlock [py "Museum visit"; py "Coffee break"]; Blank 4]
           (ListBlock [py "Museum visit"; py "Coffee break"]) "BodyText").
  - vm_compute. reflexivity.
  - simpl. tauto.
  - reflexivity.
  - vm_compute. reflexivity.
Defined.

Lemma blocks_blank lines :
  forallb is_blank_line lines = true ->
  blocks lines = map (fun _ => Blank 6) lines.
Proof.
  induction lines as [|raw rest IH]; [reflexivity|]. simpl forallb.
  intros H. apply andb_true_iff in H as [Hr Hrest].
  rewrite blocks_cons, Hr, (IH Hrest). reflexivity.
Qed.

Lemma texts_blank (lines : list pystr) :
  texts (map (fun _ => Blank 6) lines) = [].
Proof. induction lines as [|raw rest IH]; [reflexivity|exact IH]. Qed.

(** C8. With the stylesheet's entries in place, [write_pdf] calls the
    document builder for every text whose headings, paragraphs and list items
    ReportLab accepts, and the story it hands over is the title paragraph
    "Travel Plan", then the line "Generated: " with the time stamp, then a
    spacer, and only then the flowables of the blocks of the text.  For the
    empty text nothing follows the three, and for a text of blank lines only
    their spacers follow, whatever ReportLab accepts.  When ReportLab refuses
    a text of the document, [write_pdf] raises its [ValueError] and the
    builder is not called: there is then no document at all. *)
Theorem story_starts_with_title build accepts styles now md filename fs
    ttl normal body p2 p3 :
  styles !! "Title" = Some ttl ->
  styles !! "Normal" = Some normal ->
  styles !! "BodyText" = Some body ->
  styles !! "Heading2" = Some p2 ->
  styles !! "Heading3" = Some p3 ->
  exists bs,
    buildBlocks md = Some bs /\
    write_pdf build accepts styles now md filename fs =
    match first_rejected accepts (texts bs) with
    | Some t => (Raise (ValueError t), fs)
    | None =>
        match
          build (doc_for filename)
            (Paragraph (py "Travel Plan")
               (derive "Header" ttl (Some 18%Z) None (Some 12%Z))
             :: Paragraph (py "Generated: " ++ now) normal
             :: Spacer 1 10
             :: map (flowable_of body
                       (derive "H2" p2 None (Some 12%Z) (Some 6%Z))
                       (derive "H3" p3 None (Some 8%Z) (Some 4%Z))) bs) fs
        with
        | (None, fs') => (Return filename, fs')
        | (Some e, fs') => (Raise e, fs')
        end
    end /\
    (md = [] -> bs = []) /\
    (forallb is_blank_line (splitlines md) = true ->
     bs = map (fun _ => Blank 6) (splitlines md) /\
     first_rejected accepts (texts bs) = None).
Proof.
  intros Ht Hn Hb H2 H3.
  exists (blocks (splitlines md)).
  split; [apply blocks_of_lines_total|]. split; [|split].
  - unfold write_pdf, getitem. rewrite Ht, Hn. cbn [obind].
    rewrite (markdown_to_flowables_ok accepts md styles body p2 p3 Hb H2 H3).
    destruct (first_rejected accepts (texts (blocks (splitlines md))));
      reflexivity.
  - intros ->. reflexivity.
  - intros Hblank. rewrite (blocks_blank _ Hblank), texts_blank.
    split; reflexivity.
Qed.

Lemma story_starts_with_title_witness :
  exists bs,
    buildBlocks (py "   ") = Some bs /\
    write_pdf (direct_build 1000) ex_accepts sample_styles ex_now (py "   ")
      "travel_plan.pdf" ∅ =
    match first_rejected ex_accepts (texts bs) with
    | Some t => (Raise (ValueError t), ∅)
    | None =>
        match
          direct_build 1000 (doc_for "travel_plan.pdf")
            (Paragraph (py "Travel Plan")
               (derive "Header" (mkStyle "Title" (Some "Normal") 18 0 6)
                  (Some 18%Z) None (Some 12%Z))
             :: Paragraph (py "Generated: " ++ ex_now)
                  (mkStyle "Normal" None 10 0 0)
             :: Spacer 1 10
             :: map (flowable_of
                       (mkStyle "BodyText" (Some "Normal") 10 6 0)
                       (derive "H2"
                          (mkStyle "Heading2" (Some "Normal") 14 12 6)
                          None (Some 12%Z) (Some 6%Z))
                       (derive "H3"
                          (mkStyle "Heading3" (Some "Normal") 12 12 6)
                          None (Some 8%Z) (Some 4%Z))) bs) ∅
        with
        | (None, fs') => (Return "travel_plan.pdf", fs')
        | (Some e, fs') => (Raise e, fs')
        end
    end /\
    (py "   " = [] -> bs = []) /\
    (forallb is_blank_line (splitlines (py "   ")) = true ->
     bs = map (fun _ => Blank 6) (splitlines (py "   ")) /\
     first_rejected ex_accepts (texts bs) = None).
Proof.
  apply (story_starts_with_title (direct_build 1000) ex_accepts sample_styles
           ex_now (py "   ") "travel_plan.pdf" ∅);
    vm_compute; reflexivity.
Defined.

(** A text ReportLab refuses: the builder is not called and [write_pdf]
    raises. *)
Example refused_text_has_no_document :
  write_pdf (direct_build 1000) ex_accepts sample_styles ex_now
    (py "## Trip" ++ 10 :: py "Visit <b>museum") "travel_plan.pdf" ∅ =
  (Raise (ValueError (py "Visit <b>museum")), ∅).
Proof. vm_compute. reflexivity. Qed.




(** * Further properties of the code *)

(** ** Trimming and the blocks *)

Lemma strip_drop1_rstrip s : strip (drop 1 (rstrip s)) = strip (drop 1 s).
Proof.
  destruct s as [|c tl]; [reflexivity|].
  rewrite rstrip_cons.
  destruct (is_empty (rstrip tl) && isspace c) eqn:E.
  - apply andb_true_iff in E as [E _]. apply is_empty_true, rstrip_nil_iff in E.
    change (drop 1 (c :: tl)) with tl.
    rewrite (strip_all_space tl E). reflexivity.
  - change (drop 1 (c :: tl)) with tl.
    change (drop 1 (c :: rstrip tl)) with (rstrip tl). apply strip_rstrip.
Qed.

Lemma bullet_text_rstrip raw : bullet_text (rstrip raw) = bullet_text raw.
Proof.
  unfold bullet_text. rewrite lstrip_rstrip. apply strip_drop1_rstrip.
Qed.

Lemma is_blank_rstrip raw : is_blank_line (rstrip raw) = is_blank_line raw.
Proof. rewrite !is_blank_line_spec. apply all_space_rstrip. Qed.

Lemma forallb_bullet_map (f : pystr -> pystr) run :
  (forall l, is_bullet_line (f l) = is_bullet_line l) ->
  forallb is_bullet_line (map f run) = forallb is_bullet_line run.
Proof.
  intros Hf. induction run as [|l run IH]; [reflexivity|]. simpl.
  rewrite Hf, IH. reflexivity.
Qed.

Lemma starts_with_bullet_map (f : pystr -> pystr) lines :
  (forall l, is_bullet_line (f l) = is_bullet_line l) ->
  starts_with_bullet (map f lines) = starts_with_bullet lines.
Proof. intros Hf. destruct lines; [reflexivity|]. simpl. apply Hf. Qed.

(** A change of the lines that keeps, line by line, what the loop reads of
    them keeps the blocks. *)
Lemma blocks_map (f : pystr -> pystr) :
  (forall l, is_bullet_line (f l) = is_bullet_line l) ->
  (forall l, is_blank_line (f l) = is_blank_line l) ->
  (forall l, is_bullet_line l = true -> bullet_text (f l) = bullet_text l) ->
  (forall l, is_bullet_line l = false -> rstrip (f l) = rstrip l) ->
  forall lines, blocks (map f lines) = blocks lines.
Proof.
  intros Hb Hk Ht Hr lines.
  induction lines as [|raw rest E IH|l run rest Hrun Hrest IH] using lines_ind.
  - reflexivity.
  - simpl map. rewrite !blocks_cons, Hb, Hk, E, (Hr _ E), IH. reflexivity.
  - rewrite map_app.
    change (map f (l :: run)) with (f l :: map f run).
    rewrite (blocks_run (f l) (map f run) (map f rest)).
    + rewrite (blocks_run l run rest Hrun Hrest), IH. do 2 f_equal.
      change (f l :: map f run) with (map f (l :: run)).
      rewrite map_map. apply map_ext_in. intros x Hx. apply Ht.
      rewrite forallb_forall in Hrun. apply Hrun, Hx.
    + change (f l :: map f run) with (map f (l :: run)).
      rewrite (forallb_bullet_map f _ Hb). exact Hrun.
    + rewrite (starts_with_bullet_map f _ Hb). exact Hrest.
Qed.

(** ** More about the classifier *)

(** X1. White space at the end of a line does not change the blocks: a
    document and the same document with every line right-trimmed classify
    alike. *)
Theorem trailing_space_is_ignored (lines : list pystr) :
  blocks_of_lines (map rstrip lines) = blocks_of_lines lines.
Proof.
  rewrite !blocks_of_lines_total. f_equal. apply blocks_map.
  - apply bullet_rstrip.
  - apply is_blank_rstrip.
  - intros l _. apply bullet_text_rstrip.
  - intros l _. apply rstrip_idem.
Qed.

(** X2. The indentation of a bullet line does not change the blocks: bullet
    lines at any depth join the same flat list. *)
Theorem bullet_indentation_is_ignored (lines : list pystr) :
  blocks_of_lines (map unindent_bullet lines) = blocks_of_lines lines.
Proof.
  assert (Hb : forall l, is_bullet_line (unindent_bullet l) = is_bullet_line l).
  { intros l. unfold unindent_bullet.
    destruct (is_bullet_line l) eqn:E; [|exact E].
    unfold is_bullet_line in *. rewrite lstrip_idem. exact E. }
  rewrite !blocks_of_lines_total. f_equal. apply blocks_map.
  - exact Hb.
  - intros l. unfold unindent_bullet.
    destruct (is_bullet_line l); [|reflexivity].
    rewrite !is_blank_line_spec. apply all_space_lstrip.
  - intros l E. unfold unindent_bullet. rewrite E. unfold bullet_text.
    rewrite lstrip_idem. reflexivity.
  - intros l E. unfold unindent_bullet. rewrite E. reflexivity.
Qed.

Lemma text_ok_blocks lines : Forall text_ok (blocks lines).
Proof.
  induction lines as [|raw rest E IH|l run rest Hrun Hrest IH] using lines_ind.
  - constructor.
  - rewrite blocks_cons, E.
    destruct (is_blank_line raw) eqn:Eb; [constructor; [exact I|exact IH]|].
    destruct (startswith h2_marker (rstrip raw)) eqn:E2.
    { constructor; [|exact IH]. split; [apply strip_idem|].
      apply (heading_text_not_empty h2_marker raw); [left; reflexivity|exact E2]. }
    destruct (startswith h3_marker (rstrip raw)) eqn:E3.
    { constructor; [|exact IH]. split; [apply strip_idem|].
      apply (heading_text_not_empty h3_marker raw); [right; reflexivity|exact E3]. }
    constructor; [|exact IH]. split; [apply rstrip_idem|].
    rewrite all_space_rstrip, <- is_blank_line_spec. exact Eb.
  - rewrite (blocks_run l run rest Hrun Hrest).
    constructor; [|constructor; [exact I|exact IH]].
    apply List.Forall_forall. intros t Ht.
    apply in_map_iff in Ht as (x & <- & _).
    apply strip_idem.
Qed.

Lemma shape_ok_blocks lines : shape_ok (blocks lines) = true.
Proof.
  induction lines as [|raw rest E IH|l run rest Hrun Hrest IH] using lines_ind.
  - reflexivity.
  - rewrite blocks_cons, E.
    repeat match goal with
           | |- context [if ?b then _ else _] => destruct b
           end; simpl; exact IH.
  - rewrite (blocks_run l run rest Hrun Hrest). simpl. exact IH.
Qed.

Lemma blocks_length lines :
  (length (blocks lines) <= 2 * length lines)%nat /\
  (lines <> [] -> blocks lines <> []).
Proof.
  induction lines as [|raw rest E IH|l run rest Hrun Hrest IH] using lines_ind.
  - split; [simpl; lia|congruence].
  - rewrite blocks_cons, E. destruct IH as [IH _].
    repeat match goal with
           | |- context [if ?b then _ else _] => destruct b
           end; (split; [simpl; lia|discriminate]).
  - rewrite (blocks_run l run rest Hrun Hrest). destruct IH as [IH _].
    split; [|discriminate]. rewrite length_app. simpl. lia.
Qed.

(** X3. The blocks of every document have the shape the loop gives them: a
    list block has at least one item and its spacer of height 4 right after
    it, the other spacers have height 6, and headings have level 2 or 3. *)
Theorem blocks_have_loop_shape (sourceText : pystr) :
  exists bs, buildBlocks sourceText = Some bs /\ shape_ok bs = true.
Proof.
  exists (blocks (splitlines sourceText)).
  split; [apply blocks_of_lines_total|apply shape_ok_blocks].
Qed.

(** X4. The texts of the blocks are trimmed: a heading's text and an item's
    text have no white space at either end, a paragraph's text none at its
    end; a heading's text and a paragraph's text are never empty, an item's
    text may be. *)
Theorem block_texts_are_trimmed (sourceText : pystr) :
  exists bs, buildBlocks sourceText = Some bs /\ Forall text_ok bs.
Proof.
  exists (blocks (splitlines sourceText)).
  split; [apply blocks_of_lines_total|apply text_ok_blocks].
Qed.

(** X5. A document of n lines gives at most 2n blocks, and a document with a
    line gives a block. *)
Theorem block_count_bounds (lines : list pystr) :
  exists bs,
    blocks_of_lines lines = Some bs /\
    (length bs <= 2 * length lines)%nat /\
    Nat.eqb (length bs) 0 = Nat.eqb (length lines) 0.
Proof.
  exists (blocks lines). split; [apply blocks_of_lines_total|].
  destruct (blocks_length lines) as [Hle Hne]. split; [exact Hle|].
  destruct lines as [|l lines]; [reflexivity|].
  destruct (blocks (l :: lines)) eqn:E; [|reflexivity].
  exfalso. apply Hne; [discriminate|reflexivity].
Qed.

(** X6. The scan of two documents one after the other is the scan of the
    first followed by the scan of the second, unless the first ends and the
    second begins with a bullet line (their two runs are then one list). *)
Theorem scan_of_concatenation pre suf bs_pre bs_suf :
  ends_with_bullet pre && starts_with_bullet suf = false ->
  blocks_of_lines pre = Some bs_pre ->
  blocks_of_lines suf = Some bs_suf ->
  blocks_of_lines (pre ++ suf) = Some (bs_pre ++ bs_suf).
Proof.
  intros Hcut Hp Hs. apply blocks_of_lines_eq in Hp, Hs. subst.
  apply blocks_of_lines_eq, blocks_app, Hcut.
Qed.

Lemma scan_of_concatenation_witness :
  blocks_of_lines ((ex_pre ++ ex_run) ++ ex_rest) =
  Some ([Para (py "Plan:"); ListBlock [py "Museum visit"; py "Coffee break"];
         Blank 4] ++
        [Blank 6; ListBlock [py "Walk"]; Blank 4; Para (py "Done.")]).
Proof.
  apply (scan_of_concatenation (ex_pre ++ ex_run) ex_rest);
    vm_compute; reflexivity.
Defined.

(** Two runs that meet at the cut are one list: the scan of the whole is not
    the two scans one after the other. *)
Example scan_of_concatenation_inside_run :
  blocks_of_lines ([py "- a"] ++ [py "- b"]) =
    Some [ListBlock [py "a"; py "b"]; Blank 4] /\
  blocks_of_lines [py "- a"] = Some [ListBlock [py "a"]; Blank 4] /\
  blocks_of_lines [py "- b"] = Some [ListBlock [py "b"]; Blank 4].
Proof. vm_compute. repeat split. Qed.

(** ** Line endings *)

Lemma splitlines_from_line l cur s :
  no_break l = true ->
  splitlines_from cur (l ++ s) = splitlines_from (cur ++ l) s.
Proof.
  revert cur. induction l as [|c l IH]; intros cur H.
  - rewrite app_nil_r. reflexivity.
  - simpl in H. apply andb_true_iff in H as [Hc Hl].
    apply negb_true_iff in Hc. simpl. rewrite Hc, (IH _ Hl), <- app_assoc.
    reflexivity.
Qed.

Lemma splitlines_from_lf cur s :
  splitlines_from cur (10 :: s) = cur :: splitlines_from [] s.
Proof. destruct s; reflexivity. Qed.

Lemma splitlines_from_crlf cur s :
  splitlines_from cur (13 :: 10 :: s) = cur :: splitlines_from [] s.
Proof. reflexivity. Qed.

Lemma splitlines_from_cr cur s :
  head s <> Some 10 ->
  splitlines_from cur (13 :: s) = cur :: splitlines_from [] s.
Proof.
  destruct s as [|c s]; [reflexivity|]. simpl head. intros H.
  cbn [splitlines_from]. change (is_linebreak 13) with true. cbv iota.
  change (13 =? 13) with true. rewrite andb_true_l.
  destruct (c =? 10) eqn:E; [|reflexivity].
  apply N.eqb_eq in E. subst c. contradiction.
Qed.

Lemma head_no_break l tail :
  no_break l = true -> head tail <> Some 10 -> head (l ++ tail) <> Some 10.
Proof.
  destruct l as [|c l]; [intros _ H; exact H|]. simpl.
  intros H _ E. injection E as ->. discriminate.
Qed.

Lemma head_unlines_cr lines tail :
  forallb no_break lines = true -> head tail <> Some 10 ->
  head (unlines [13] lines ++ tail) <> Some 10.
Proof.
  destruct lines as [|l lines]; [intros _ H; exact H|].
  change (unlines [13] (l :: lines)) with ((l ++ [13]) ++ unlines [13] lines).
  simpl forallb. intros H _. apply andb_true_iff in H as [Hl _].
  rewrite <- !app_assoc. apply head_no_break; [exact Hl|discriminate].
Qed.

(** Splitting undoes the writing of lines with a terminator after each, for
    the terminators LF, CR LF and CR; [tail] is what follows the last
    terminator. *)
Lemma splitlines_unlines_app sep lines tail :
  sep = [10] \/ sep = [13; 10] \/ sep = [13] ->
  forallb no_break lines = true ->
  head tail <> Some 10 ->
  splitlines_from [] (unlines sep lines ++ tail) = lines ++ splitlines_from [] tail.
Proof.
  intros Hsep Hls Htail.
  induction lines as [|l lines IH]; [reflexivity|]. simpl forallb in Hls.
  apply andb_true_iff in Hls as [Hl Hls]. specialize (IH Hls).
  change (unlines sep (l :: lines)) with ((l ++ sep) ++ unlines sep lines).
  rewrite <- !app_assoc, (splitlines_from_line l [] _ Hl). simpl app at 1.
  destruct Hsep as [-> | [-> | ->]]; simpl app.
  - rewrite splitlines_from_lf, IH. reflexivity.
  - rewrite splitlines_from_crlf, IH. reflexivity.
  - rewrite splitlines_from_cr by (apply head_unlines_cr; assumption).
    rewrite IH. reflexivity.
Qed.

Lemma splitlines_unlines sep lines :
  sep = [10] \/ sep = [13; 10] \/ sep = [13] ->
  forallb no_break lines = true ->
  splitlines (unlines sep lines) = lines.
Proof.
  intros Hsep Hls. unfold splitlines.
  rewrite <- (app_nil_r (unlines sep lines)).
  rewrite (splitlines_unlines_app sep lines [] Hsep Hls) by discriminate.
  apply app_nil_r.
Qed.

(** X7. Lines written with LF, with CR LF or with CR after each classify
    alike: the blocks are those of the lines themselves. *)
Theorem line_endings_are_alike (lines : list pystr) :
  forallb no_break lines = true ->
  buildBlocks (unlines [10] lines) = blocks_of_lines lines /\
  buildBlocks (unlines [13; 10] lines) = blocks_of_lines lines /\
  buildBlocks (unlines [13] lines) = blocks_of_lines lines.
Proof.
  intros H. unfold buildBlocks.
  rewrite !splitlines_unlines by (exact H || tauto). repeat split.
Qed.

Lemma line_endings_are_alike_witness :
  buildBlocks (unlines [10] (ex_pre ++ ex_run ++ ex_rest)) =
    blocks_of_lines (ex_pre ++ ex_run ++ ex_rest) /\
  buildBlocks (unlines [13; 10] (ex_pre ++ ex_run ++ ex_rest)) =
    blocks_of_lines (ex_pre ++ ex_run ++ ex_rest) /\
  buildBlocks (unlines [13] (ex_pre ++ ex_run ++ ex_rest)) =
    blocks_of_lines (ex_pre ++ ex_run ++ ex_rest).
Proof.
  apply (line_endings_are_alike (ex_pre ++ ex_run ++ ex_rest)).
  vm_compute. reflexivity.
Defined.

(** X8. The terminator after the last line is optional: a document whose
    last line is not empty classifies alike with and without it. *)
Theorem final_terminator_is_optional sep lines last :
  sep = [10] \/ sep = [13; 10] \/ sep = [13] ->
  forallb no_break lines = true ->
  no_break last = true ->
  last <> [] ->
  buildBlocks (unlines sep lines ++ last) =
  buildBlocks (unlines sep (lines ++ [last])).
Proof.
  intros Hsep Hls Hl Hne. unfold buildBlocks. f_equal.
  rewrite splitlines_unlines
    by (exact Hsep || (rewrite forallb_app, Hls; simpl; rewrite Hl; reflexivity)).
  unfold splitlines. rewrite (splitlines_unlines_app sep lines last Hsep Hls).
  - rewrite <- (app_nil_r last) at 1.
    rewrite (splitlines_from_line last [] [] Hl). simpl.
    destruct last; [contradiction|reflexivity].
  - rewrite <- (app_nil_r last). apply head_no_break; [exact Hl|discriminate].
Qed.

Lemma final_terminator_is_optional_witness :
  buildBlocks (unlines [13; 10] ex_run ++ py "Done.") =
  buildBlocks (unlines [13; 10] (ex_run ++ [py "Done."])).
Proof.
  apply (final_terminator_is_optional [13; 10] ex_run (py "Done."));
    [tauto|vm_compute; reflexivity|vm_compute; reflexivity|discriminate].
Defined.

(** ** More about styles and [write_pdf] *)

Lemma block_of_flowable_of body h2 h3 lines :
  String.eqb (styleName body) "H2" = false ->
  String.eqb (styleName body) "H3" = false ->
  styleName h2 = "H2" -> styleName h3 = "H3" ->
  map block_of_flowable (map (flowable_of body h2 h3) (blocks lines)) =
  blocks lines.
Proof.
  intros Hn2 Hn3 E2 E3.
  induction lines as [|raw rest E IH|l run rest Hrun Hrest IH] using lines_ind.
  - reflexivity.
  - rewrite blocks_cons, E.
    destruct (is_blank_line raw);
      [|destruct (startswith h2_marker (rstrip raw));
        [|destruct (startswith h3_marker (rstrip raw))]];
      cbn [map flowable_of block_of_flowable Z.eqb Pos.eqb];
      rewrite ?E2, ?E3, ?Hn2, ?Hn3; cbn [String.eqb Ascii.eqb Bool.eqb];
      rewrite IH; reflexivity.
  - rewrite (blocks_run l run rest Hrun Hrest).
    cbn [map flowable_of block_of_flowable]. rewrite IH, map_map.
    cbn [item_text]. rewrite map_id. reflexivity.
Qed.

(** X9. The flowables [markdown_to_flowables] returns are, one by one and in
    order, the blocks of [buildBlocks]: spacers for blanks, paragraphs in the
    derived styles "H2" and "H3" for headings, paragraphs in the body style
    for paragraphs, list flowables for list blocks, with the same texts.  The
    body style must not itself be named "H2" or "H3". *)
Theorem flowables_are_the_blocks accepts md styles body flow :
  styles !! "BodyText" = Some body ->
  String.eqb (styleName body) "H2" = false ->
  String.eqb (styleName body) "H3" = false ->
  markdown_to_flowables accepts md styles = Return flow ->
  buildBlocks md = Some (map block_of_flowable flow).
Proof.
  intros Hb Hn2 Hn3 Hm.
  destruct (markdown_to_flowables_return _ _ _ _ Hm)
    as (body' & p2 & p3 & Hb' & _ & _ & _ & ->).
  rewrite Hb in Hb'. injection Hb' as <-.
  rewrite block_of_flowable_of by (assumption || reflexivity).
  apply blocks_of_lines_total.
Qed.

Lemma flowables_are_the_blocks_witness :
  buildBlocks scenario_text =
  Some (map block_of_flowable
          (match markdown_to_flowables ex_accepts scenario_text sample_styles
           with
           | Return flow => flow
           | _ => []
           end)).
Proof.
  apply (flowables_are_the_blocks ex_accepts scenario_text sample_styles
           (mkStyle "BodyText" (Some "Normal") 10 6 0));
    vm_compute; reflexivity.
Defined.

(** X10. The three styles are looked up before the text is read:
    [markdown_to_flowables] raises [KeyError] for the first of "BodyText",
    "Heading2", "Heading3" the stylesheet lacks, whatever the text (also for
    the empty text and for a text without headings).  When the stylesheet has
    all three, it raises [ValueError] for the first text of the document
    ReportLab refuses, and returns the flowables of the blocks when ReportLab
    refuses none. *)
Theorem style_lookup_comes_first accepts md styles :
  match styles !! "BodyText", styles !! "Heading2", styles !! "Heading3" with
  | None, _, _ =>
      markdown_to_flowables accepts md styles = Raise (KeyError "BodyText")
  | Some _, None, _ =>
      markdown_to_flowables accepts md styles = Raise (KeyError "Heading2")
  | Some _, Some _, None =>
      markdown_to_flowables accepts md styles = Raise (KeyError "Heading3")
  | Some body, Some p2, Some p3 =>
      exists bs,
        buildBlocks md = Some bs /\
        markdown_to_flowables accepts md styles =
        match first_rejected accepts (texts bs) with
        | Some t => Raise (ValueError t)
        | None =>
            Return (map (flowable_of body
                           (derive "H2" p2 None (Some 12%Z) (Some 6%Z))
                           (derive "H3" p3 None (Some 8%Z) (Some 4%Z))) bs)
        end
  end.
Proof.
  destruct (styles !! "BodyText") as [body|] eqn:Eb;
    [|unfold markdown_to_flowables, getitem; rewrite Eb; reflexivity].
  destruct (styles !! "Heading2") as [p2|] eqn:E2;
    [|unfold markdown_to_flowables, getitem; rewrite Eb, E2; reflexivity].
  destruct (styles !! "Heading3") as [p3|] eqn:E3;
    [|unfold markdown_to_flowables, getitem; rewrite Eb, E2, E3; reflexivity].
  exists (blocks (splitlines md)). split; [apply blocks_of_lines_total|].
  apply markdown_to_flowables_ok; assumption.
Qed.

(** The two outcomes with the styles in place, on the scenario document and
    on a document with a tag that is not closed. *)
Example style_lookup_then_text :
  (exists flow,
      markdown_to_flowables ex_accepts scenario_text sample_styles =
      Return flow) /\
  markdown_to_flowables ex_accepts
    (py "## Trip" ++ 10 :: py "- Visit <b>museum") sample_styles =
  Raise (ValueError (py "Visit <b>museum")).
Proof. split; [eexists|]; vm_compute; reflexivity. Qed.

(** X11. When [write_pdf] returns, it returns the file name it was given, the
    stylesheet had the five styles it reads, and the document builder was
    called on the template of that file name and succeeded; the files are the
    ones the builder left. *)
Theorem write_pdf_returns_its_filename
    build accepts styles now md filename fs path fs' :
  write_pdf build accepts styles now md filename fs = (Return path, fs') ->
  path = filename /\
  (exists story, build (doc_for filename) story fs = (None, fs')) /\
  is_Some (styles !! "Title") /\ is_Some (styles !! "Normal") /\
  is_Some (styles !! "BodyText") /\ is_Some (styles !! "Heading2") /\
  is_Some (styles !! "Heading3").
Proof.
  unfold write_pdf, getitem.
  destruct (styles !! "Title") as [ttl|] eqn:Et; cbn [obind]; [|discriminate].
  destruct (styles !! "Normal") as [normal|] eqn:En; cbn [obind]; [|discriminate].
  destruct (markdown_to_flowables accepts md styles) as [flow|e0|] eqn:Em;
    cbn [obind]; [|discriminate..].
  destruct (markdown_to_flowables_return _ _ _ _ Em)
    as (b & p2 & p3 & -> & -> & -> & _ & _).
  match goal with
  | |- context [build ?d ?s fs] =>
      destruct (build d s fs) as [[e1|] fs1] eqn:Eb
  end; [discriminate|].
  intros H. injection H as <- <-.
  split; [reflexivity|]. split; [eexists; exact Eb|]. repeat split; eauto.
Qed.

Lemma write_pdf_returns_its_filename_witness :
  "travel_plan.pdf" = "travel_plan.pdf" /\
  (exists story,
      direct_build 1000 (doc_for "travel_plan.pdf") story ∅ =
      (None, snd (write_pdf (direct_build 1000) ex_accepts sample_styles ex_now
                    scenario_text "travel_plan.pdf" ∅))) /\
  is_Some (sample_styles !! "Title") /\ is_Some (sample_styles !! "Normal") /\
  is_Some (sample_styles !! "BodyText") /\
  is_Some (sample_styles !! "Heading2") /\
  is_Some (sample_styles !! "Heading3").
Proof.
  apply (write_pdf_returns_its_filename (direct_build 1000) ex_accepts
           sample_styles ex_now scenario_text "travel_plan.pdf" ∅).
  vm_compute. reflexivity.
Defined.

(** ** Session state *)

Lemma lookup_setdefault key v (ss : session) k :
  setdefault key v ss !! k =
  match ss !! k with
  | Some x => Some x
  | None => if String.eqb k key then Some v else None
  end.
Proof.
  unfold setdefault. destruct (ss !! key) as [x|] eqn:E.
  - destruct (ss !! k) eqn:Ek; [reflexivity|].
    destruct (String.eqb_spec k key) as [->|]; [congruence|reflexivity].
  - rewrite lookup_insert. destruct (String.eqb_spec k key) as [->|Hne].
    + rewrite decide_True, E by reflexivity. reflexivity.
    + rewrite decide_False by congruence. destruct (ss !! k); reflexivity.
Qed.

Lemma lookup_init_form_state (ss : session) k :
  init_form_state ss !! k =
  match ss !! k with
  | Some v => Some v
  | None => state_default k
  end.
Proof.
  unfold init_form_state. rewrite !lookup_setdefault.
  unfold state_default, form_default.
  destruct (ss !! k); [reflexivity|].
  repeat match goal with
         | |- context [String.eqb k ?s] => destruct (String.eqb_spec k s); subst
         end; try reflexivity; congruence.
Qed.

Ltac session_lookup :=
  unfold reset_all_callback, clear_fields_only_callback, pop;
  repeat (rewrite lookup_delete || rewrite lookup_insert);
  repeat case_decide; subst; try reflexivity; try congruence.

Lemma lookup_reset_all_callback (ss : session) k :
  reset_all_callback ss !! k =
  if is_model_key k then None
  else match state_default k with
       | Some v => Some v
       | None => ss !! k
       end.
Proof.
  unfold is_model_key, state_default, form_default.
  repeat match goal with
         | |- context [String.eqb k ?s] => destruct (String.eqb_spec k s); subst
         end; simpl; session_lookup.
Qed.

Lemma lookup_clear_fields_only_callback (ss : session) k :
  clear_fields_only_callback ss !! k =
  match form_default k with
  | Some v => Some v
  | None => ss !! k
  end.
Proof.
  unfold form_default.
  repeat match goal with
         | |- context [String.eqb k ?s] => destruct (String.eqb_spec k s); subst
         end; simpl; session_lookup.
Qed.

(** X12. [init_form_state] keeps every value the session already holds, gives
    the four form keys and the plan their start values where they are
    missing, adds nothing else, and changes nothing when run again. *)
Theorem init_form_state_fills_gaps (ss : session) :
  (forall k, init_form_state ss !! k =
             match ss !! k with
             | Some v => Some v
             | None => state_default k
             end) /\
  init_form_state (init_form_state ss) = init_form_state ss.
Proof.
  split; [apply lookup_init_form_state|].
  apply map_eq. intros k. rewrite !lookup_init_form_state.
  destruct (ss !! k); [reflexivity|]. destruct (state_default k); reflexivity.
Qed.

(** X13. [reset_all_callback] puts the four form keys and the plan back to
    their start values and removes the record of the last model and its
    usage, whatever was there, and leaves every other key alone; running it
    twice is running it once, and [init_form_state] changes nothing after
    it. *)
Theorem reset_all_callback_restores_start (ss : session) :
  (forall k, reset_all_callback ss !! k =
             if is_model_key k then None
             else match state_default k with
                  | Some v => Some v
                  | None => ss !! k
                  end) /\
  reset_all_callback (reset_all_callback ss) = reset_all_callback ss /\
  init_form_state (reset_all_callback ss) = reset_all_callback ss.
Proof.
  split; [apply lookup_reset_all_callback|]. split.
  - apply map_eq. intros k. rewrite !lookup_reset_all_callback.
    destruct (is_model_key k); [reflexivity|].
    destruct (state_default k); reflexivity.
  - apply map_eq. intros k.
    rewrite lookup_init_form_state, !lookup_reset_all_callback.
    destruct (is_model_key k) eqn:Em.
    + unfold is_model_key in Em. unfold state_default, form_default.
      repeat match goal with
             | |- context [String.eqb k ?s] =>
                 destruct (String.eqb_spec k s); subst
             end; try reflexivity; discriminate.
    + destruct (state_default k) eqn:Ed; [reflexivity|].
      destruct (ss !! k); reflexivity.
Qed.

(** X14. [clear_fields_only_callback] puts the four form keys back to their
    start values and keeps the plan, the record of the last model and every
    other key; with [reset_all_callback], in either order, it gives what
    [reset_all_callback] gives alone. *)
Theorem clear_fields_keeps_plan (ss : session) :
  (forall k, clear_fields_only_callback ss !! k =
             match form_default k with
             | Some v => Some v
             | None => ss !! k
             end) /\
  clear_fields_only_callback ss !! "plan_md" = ss !! "plan_md" /\
  reset_all_callback (clear_fields_only_callback ss) = reset_all_callback ss /\
  clear_fields_only_callback (reset_all_callback ss) = reset_all_callback ss.
Proof.
  split; [apply lookup_clear_fields_only_callback|].
  split; [apply lookup_clear_fields_only_callback|]. split.
  - apply map_eq. intros k.
    rewrite !lookup_reset_all_callback, lookup_clear_fields_only_callback.
    destruct (is_model_key k); [reflexivity|].
    unfold state_default.
    destruct (String.eqb k "plan_md"); [reflexivity|].
    destruct (form_default k); reflexivity.
  - apply map_eq. intros k.
    rewrite lookup_clear_fields_only_callback, !lookup_reset_all_callback.
    destruct (form_default k) eqn:Ef; [|reflexivity].
    unfold state_default. rewrite Ef.
    unfold is_model_key. unfold form_default in Ef.
    repeat match type of Ef with
           | context [String.eqb k ?s] =>
               destruct (String.eqb_spec k s); subst
           end; try reflexivity; discriminate.
Qed.

(** ** Chat completions *)

Lemma not_blank_not_all_space s : is_empty (strip s) = false -> all_space s = false.
Proof.
  intros H. destruct (all_space s) eqn:E; [|reflexivity].
  rewrite (strip_all_space s E) in H. discriminate.
Qed.

Lemma extract_blank_iff_empty (comp : completion) :
  is_empty (strip (_extract_text_from_chat_completion comp)) =
  is_empty (_extract_text_from_chat_completion comp).
Proof.
  unfold _extract_text_from_chat_completion.
  destruct (choices comp) as [|[s|ps|] rest]; [reflexivity| |..|reflexivity].
  - destruct (is_empty (strip s)) eqn:E; [reflexivity|]. simpl negb. cbv iota.
    rewrite E. destruct s; [discriminate|reflexivity].
  - cbv zeta.
    destruct (is_empty (strip (join nl (omap part_text ps)))) eqn:E;
      simpl negb; cbv iota; [reflexivity|].
    rewrite strip_idem, E. reflexivity.
Qed.

(** X15. The text [_extract_text_from_chat_completion] returns is never a
    non-empty string of white space: it is empty exactly when it is blank.
    It is empty for a completion without choices, and for a list content it
    has no white space at either end. *)
Theorem extracted_text_is_never_blank (comp : completion) :
  is_empty (strip (_extract_text_from_chat_completion comp)) =
  is_empty (_extract_text_from_chat_completion comp) /\
  match choices comp with
  | [] => _extract_text_from_chat_completion comp = []
  | CList _ :: _ =>
      strip (_extract_text_from_chat_completion comp) =
      _extract_text_from_chat_completion comp
  | _ => True
  end.
Proof.
  split; [apply extract_blank_iff_empty|].
  unfold _extract_text_from_chat_completion.
  destruct (choices comp) as [|[s|ps|] rest]; [reflexivity|exact I| |exact I].
  cbv zeta.
  destruct (is_empty (strip (join nl (omap part_text ps)))) eqn:E;
    simpl negb; cbv iota; [reflexivity|apply strip_idem].
Qed.

Section GenerationFacts.

Context {W : Type}.
Variable create :
  string -> list (string * pystr) -> Z -> W -> (string + completion) * W.
Variable SYSTEM_PROMPT : pystr.

(** The models that fail are passed over: the loop goes on from the state
    they leave, with the error of the last of them. *)
Lemma try_models_skip tried rest messages last ss w w0 :
  all_fail create tried messages w = Some w0 ->
  exists last',
    try_models create (tried ++ rest) messages last ss w =
    try_models create rest messages last' ss w0 /\
    (tried = [] -> last' = last) /\
    (tried <> [] -> exists e, last' = Some e).
Proof.
  revert last w. induction tried as [|m tried IH]; intros last w H.
  - injection H as <-. exists last. repeat split; congruence.
  - simpl in H. simpl app. cbn [try_models].
    destruct (create m messages 2200 w) as [[e|comp] w1].
    + destruct (IH (Some (ApiError e)) w1 H) as (last' & Heq & Hnil & Hcons).
      exists last'. split; [exact Heq|]. split; [discriminate|]. intros _.
      destruct tried; [rewrite Hnil by reflexivity; eauto|apply Hcons; discriminate].
    + destruct (is_empty (strip (_extract_text_from_chat_completion comp)));
        [|discriminate]. simpl negb. cbv iota.
      destruct (IH (Some (EmptyContent m)) w1 H) as (last' & Heq & Hnil & Hcons).
      exists last'. split; [exact Heq|]. split; [discriminate|]. intros _.
      destruct tried; [rewrite Hnil by reflexivity; eauto|apply Hcons; discriminate].
Qed.

Lemma try_models_plan models messages last ss w text ss' w' :
  try_models create models messages last ss w = (Plan text, ss', w') ->
  exists tried m rest w0 comp,
    models = tried ++ m :: rest /\
    all_fail create tried messages w = Some w0 /\
    create m messages 2200 w0 = (inr comp, w') /\
    text = _extract_text_from_chat_completion comp /\
    all_space text = false /\
    ss' = <["last_usage" := usage_value comp]>
            (<["last_model_used" := VStr (py m)]> ss).
Proof.
  revert last w. induction models as [|m models IH]; intros last w H;
    [discriminate|].
  cbn [try_models] in H.
  destruct (create m messages 2200 w) as [[e|comp] w1] eqn:Ec.
  - destruct (IH _ _ H) as (tried & m' & rest & w0 & comp' & -> & Hf & Hc & Ht & Hs & Hss).
    exists (m :: tried), m', rest, w0, comp'. simpl. rewrite Ec.
    repeat split; assumption.
  - destruct (is_empty (strip (_extract_text_from_chat_completion comp))) eqn:Ee;
      simpl negb in H; cbv iota zeta in H.
    + destruct (IH _ _ H) as (tried & m' & rest & w0 & comp' & -> & Hf & Hc & Ht & Hs & Hss).
      exists (m :: tried), m', rest, w0, comp'. simpl. rewrite Ec, Ee.
      repeat split; assumption.
    + injection H as <- <- <-. exists [], m, models, w, comp.
      repeat split; try assumption. apply not_blank_not_all_space, Ee.
Qed.

Lemma try_models_failed models messages last ss w e ss' w' :
  try_models create models messages last ss w = (AllAttemptsFailed e, ss', w') ->
  ss' = ss /\ all_fail create models messages w = Some w'.
Proof.
  revert last w. induction models as [|m models IH]; intros last w H.
  - injection H as <- <- <-. split; reflexivity.
  - cbn [try_models] in H. simpl.
    destruct (create m messages 2200 w) as [[e1|comp] w1] eqn:Ec.
    + apply (IH _ _ H).
    + destruct (is_empty (strip (_extract_text_from_chat_completion comp)));
        simpl negb in H; cbv iota zeta in H; [apply (IH _ _ H)|discriminate].
Qed.

(** X16. When [get_plan_markdown] returns a text, the text is not blank and
    is what the extractor read from the answer of one of the fallback models;
    every model before that one was called and failed, no model after it was
    called, and the session records that model's name and the answer's
    usage. *)
Theorem returned_plan_is_first_answer user_prompt ss w text ss' w' :
  get_plan_markdown create SYSTEM_PROMPT user_prompt ss w = (Plan text, ss', w') ->
  exists tried m rest w0 comp,
    FALLBACK_MODELS = tried ++ m :: rest /\
    all_fail create tried
      [("system", SYSTEM_PROMPT); ("user", user_prompt)] w = Some w0 /\
    create m [("system", SYSTEM_PROMPT); ("user", user_prompt)] 2200 w0 =
      (inr comp, w') /\
    text = _extract_text_from_chat_completion comp /\
    all_space text = false /\
    ss' = <["last_usage" := usage_value comp]>
            (<["last_model_used" := VStr (py m)]> ss).
Proof. apply try_models_plan. Qed.

Lemma all_fail_snoc tried m messages w w' :
  all_fail create (tried ++ [m]) messages w = Some w' ->
  exists w2,
    all_fail create tried messages w = Some w2 /\
    all_fail create [m] messages w2 = Some w'.
Proof.
  revert w. induction tried as [|m0 tried IH]; intros w H.
  - exists w. split; [reflexivity|exact H].
  - simpl app in H. cbn [all_fail] in H |- *.
    destruct (create m0 messages 2200 w) as [[e|comp] w1]; [apply IH, H|].
    destruct (is_empty (strip (_extract_text_from_chat_completion comp)));
      [apply IH, H|discriminate].
Qed.

(** X17. When every fallback model fails, by raising or by an answer without
    text, [get_plan_markdown] raises after one call to each in turn and
    leaves the session as it was; the error it reports is the error of the
    last model, "gpt-4.1": the exception of its call when the call raised,
    and the empty content of its answer otherwise.  It raises in no other
    case. *)
Theorem all_models_failing_raises user_prompt ss w :
  let messages := [("system", SYSTEM_PROMPT); ("user", user_prompt)] in
  match all_fail create FALLBACK_MODELS messages w with
  | Some w' =>
      exists w2,
        all_fail create ["gpt-5"; "gpt-5-mini"] messages w = Some w2 /\
        snd (create "gpt-4.1" messages 2200 w2) = w' /\
        get_plan_markdown create SYSTEM_PROMPT user_prompt ss w =
        (AllAttemptsFailed
           (Some match fst (create "gpt-4.1" messages 2200 w2) with
                 | inl msg => ApiError msg
                 | inr _ => EmptyContent "gpt-4.1"
                 end), ss, w')
  | None =>
      exists text ss' w',
        get_plan_markdown create SYSTEM_PROMPT user_prompt ss w =
        (Plan text, ss', w')
  end.
Proof.
  intros messages. unfold get_plan_markdown. fold messages.
  destruct (all_fail create FALLBACK_MODELS messages w) as [w'|] eqn:Ef.
  - change FALLBACK_MODELS with (["gpt-5"; "gpt-5-mini"] ++ ["gpt-4.1"]) in *.
    apply all_fail_snoc in Ef as (w2 & Hf & Hl).
    exists w2. split; [exact Hf|].
    destruct (try_models_skip ["gpt-5"; "gpt-5-mini"] ["gpt-4.1"] messages
                None ss w w2 Hf) as (last' & -> & _).
    cbn [all_fail] in Hl. cbn [try_models].
    destruct (create "gpt-4.1" messages 2200 w2) as [[e|comp] w3].
    + injection Hl as <-. split; reflexivity.
    + destruct (is_empty (strip (_extract_text_from_chat_completion comp)));
        [|discriminate].
      injection Hl as <-. split; reflexivity.
  - destruct (try_models create FALLBACK_MODELS messages None ss w)
      as [[[text|e] ss1] w1] eqn:Et; [eauto|].
    apply try_models_failed in Et as [_ Et]. congruence.
Qed.

(** X18. The first fallback model, in order, that answers with a text that
    is not empty decides the result: when the models before it fail,
    [get_plan_markdown] returns that text, records the model and the usage in
    the session, and calls no later model. *)
Theorem first_answer_wins tried m rest user_prompt ss w w0 comp w' :
  FALLBACK_MODELS = tried ++ m :: rest ->
  all_fail create tried
    [("system", SYSTEM_PROMPT); ("user", user_prompt)] w = Some w0 ->
  create m [("system", SYSTEM_PROMPT); ("user", user_prompt)] 2200 w0 =
    (inr comp, w') ->
  is_empty (_extract_text_from_chat_completion comp) = false ->
  get_plan_markdown create SYSTEM_PROMPT user_prompt ss w =
  (Plan (_extract_text_from_chat_completion comp),
   <["last_usage" := usage_value comp]>
     (<["last_model_used" := VStr (py m)]> ss),
   w').
Proof.
  intros Hm Hf Hc He. unfold get_plan_markdown. rewrite Hm.
  destruct (try_models_skip tried (m :: rest) _ None ss w w0 Hf)
    as (last' & -> & _).
  cbn [try_models]. rewrite Hc, extract_blank_iff_empty, He. reflexivity.
Qed.

End GenerationFacts.

Lemma returned_plan_is_first_answer_witness :
  exists tried m rest w0 comp,
    FALLBACK_MODELS = tried ++ m :: rest /\
    all_fail ex_create tried
      [("system", py "You are a planner."); ("user", py "Tokyo, 3 days")] [] =
      Some w0 /\
    ex_create m
      [("system", py "You are a planner."); ("user", py "Tokyo, 3 days")]
      2200 w0 = (inr comp, ["gpt-5"; "gpt-5-mini"; "gpt-4.1"]) /\
    py "## Trip Overview" ++ nl ++ py "- Museum visit" =
      _extract_text_from_chat_completion comp /\
    all_space (py "## Trip Overview" ++ nl ++ py "- Museum visit") = false /\
    (<["last_usage" := VObj 7]> (<["last_model_used" := VStr (py "gpt-4.1")]> ∅)
       : session) =
    <["last_usage" := usage_value comp]> (<["last_model_used" := VStr (py m)]> ∅).
Proof.
  apply (returned_plan_is_first_answer ex_create (py "You are a planner.")
           (py "Tokyo, 3 days") ∅ []).
  vm_compute. reflexivity.
Defined.

Lemma first_answer_wins_witness :
  get_plan_markdown ex_create (py "You are a planner.") (py "Tokyo, 3 days")
    ∅ [] =
  (Plan (py "## Trip Overview" ++ nl ++ py "- Museum visit"),
   <["last_usage" := VObj 7]> (<["last_model_used" := VStr (py "gpt-4.1")]> ∅),
   ["gpt-5"; "gpt-5-mini"; "gpt-4.1"]).
Proof.
  apply (first_answer_wins ex_create (py "You are a planner.")
           ["gpt-5"; "gpt-5-mini"] "gpt-4.1" [] (py "Tokyo, 3 days") ∅ []
           ["gpt-5"; "gpt-5-mini"] ex_completion);
    vm_compute; reflexivity.
Defined.

(** With the service down, every model is called once and the call fails. *)
Example all_models_failing_example :
  get_plan_markdown ex_create_down (py "You are a planner.")
    (py "Tokyo, 3 days") ∅ [] =
  (AllAttemptsFailed (Some (ApiError "connection error")), ∅,
   ["gpt-5"; "gpt-5-mini"; "gpt-4.1"]).
Proof. vm_compute. reflexivity. Qed.

(** ** The main action *)

Lemma all_space_false_strip s : all_space s = false -> is_empty (strip s) = false.
Proof.
  intros H. destruct (strip s) eqn:E; [|reflexivity].
  apply strip_nil_all_space in E. congruence.
Qed.

Lemma markdown_to_flowables_has_fuel accepts md styles :
  markdown_to_flowables accepts md styles <> OutOfFuel.
Proof.
  unfold markdown_to_flowables, getitem.
  destruct (styles !! "BodyText") as [body|]; [|discriminate].
  destruct (styles !! "Heading2") as [p2|]; [|discriminate].
  destruct (styles !! "Heading3") as [p3|]; [|discriminate].
  cbn [obind]. apply scan_lines_has_fuel.
Qed.

Lemma write_pdf_has_fuel build accepts styles now md filename fs :
  fst (write_pdf build accepts styles now md filename fs) <> OutOfFuel.
Proof.
  unfold write_pdf, getitem.
  destruct (styles !! "Title") as [ttl|]; [|discriminate].
  destruct (styles !! "Normal") as [normal|]; [|discriminate].
  cbn [obind].
  pose proof (markdown_to_flowables_has_fuel accepts md styles) as Hm.
  destruct (markdown_to_flowables accepts md styles) as [flow|e|]; cbn [obind];
    [|discriminate|contradiction].
  match goal with
  | |- context [build ?d ?s fs] => destruct (build d s fs) as [[e1|] fs1]
  end; discriminate.
Qed.

Lemma write_pdf_path build accepts styles now md filename fs path fs' :
  write_pdf build accepts styles now md filename fs = (Return path, fs') ->
  path = filename.
Proof.
  unfold write_pdf.
  match goal with
  | |- context [match ?s with Return _ => _ | Raise _ => _ | OutOfFuel => _ end] =>
      destruct s as [story|e|]; [|discriminate..]
  end.
  destruct (build _ story fs) as [[e1|] fs1]; [discriminate|].
  intros H. injection H as <- _. reflexivity.
Qed.

Ltac norm_ui :=
  unfold say; cbn [w_ui w_session w_api w_files];
  repeat (rewrite <- app_assoc; cbn [app]); cbn [app].

Section MainFacts.

Context {W : Type}.
Variable create :
  string -> list (string * pystr) -> Z -> W -> (string + completion) * W.
Variable SYSTEM_PROMPT : pystr.
Variable build_user_prompt : pystr -> Z -> value -> value -> pystr.
Variable int_of_str : pystr -> option Z.
Variable build : builder.
Variable accepts : pystr -> bool.
Variable styles : gmap string ParagraphStyle.
Variable now : pystr.

Lemma get_plan_markdown_all_fail user_prompt ss (w w' : W) :
  all_fail create FALLBACK_MODELS
    [("system", SYSTEM_PROMPT); ("user", user_prompt)] w = Some w' ->
  exists e,
    get_plan_markdown create SYSTEM_PROMPT user_prompt ss w =
    (AllAttemptsFailed (Some e), ss, w').
Proof.
  intros Ef. unfold get_plan_markdown, FALLBACK_MODELS in *.
  cbn [all_fail try_models] in *.
  repeat match goal with
         | H : context [create ?m ?msgs 2200 ?x] |- _ =>
             destruct (create m msgs 2200 x) as [[?|?] ?]
         | H : context [is_empty (strip ?t)] |- _ =>
             destruct (is_empty (strip t)); [|discriminate]
         end;
    simpl negb; cbv iota zeta; injection Ef as <-; eexists; reflexivity.
Qed.

(** The values read at the top of the submitted branch, for a string
    destination and an integer number of days. *)
Lemma or_empty_strip_str d : or_empty_strip (VStr d) = inr (strip d).
Proof.
  unfold or_empty_strip, truthy. destruct d; reflexivity.
Qed.

Lemma int_or_zero_int n : int_or_zero int_of_str (VInt n) = inr n.
Proof.
  unfold int_or_zero, truthy. destruct (n =? 0)%Z eqn:E; [|reflexivity].
  apply Z.eqb_eq in E. subst n. reflexivity.
Qed.

(** What [display] does with a plan that is not blank. *)
Lemma display_plan (w : @world W) plan :
  w_session w !! "plan_md" = Some (VStr plan) ->
  all_space plan = false ->
  exists caps tail fs1,
    display build accepts styles now w =
    (None,
     mkWorld (w_ui w ++ st_success "Travel plan generated!" :: caps ++
              st_subheader "Your Travel Plan" :: st_markdown plan ::
              st_text_area "Plan (raw)" plan :: tail)
             (w_session w) (w_api w) fs1) /\
    existsb is_download caps = false /\
    match write_pdf build accepts styles now plan "travel_plan.pdf" (w_files w) with
    | (Return _, fs') =>
        fs1 = fs' /\
        match fs' !! "travel_plan.pdf" with
        | Some data =>
            tail = [st_download_button data "travel_plan.pdf" "application/pdf"]
        | None =>
            tail = [st_error_pdf OSError;
                    st_info "You can still copy the plan above while we sort out PDF export."]
        end
    | (Raise e, fs') =>
        fs1 = fs' /\
        tail = [st_error_pdf e;
                st_info "You can still copy the plan above while we sort out PDF export."]
    | (OutOfFuel, _) => False
    end.
Proof.
  intros Hp Hs. unfold display. rewrite Hp. cbn [strip_value].
  rewrite (all_space_false_strip _ Hs). simpl negb. cbv iota zeta.
  pose proof (write_pdf_has_fuel build accepts styles now plan "travel_plan.pdf"
                (w_files w)) as Hfuel.
  cbn [say w_ui w_session w_api w_files].
  set (cap1 := st_caption_model _).
  assert (Hcaps : exists caps,
             existsb is_download caps = false /\
             match w_session w !! "last_usage" with
             | Some u =>
                 if truthy u
                 then say (st_caption_usage u)
                        (say cap1 (say (st_success "Travel plan generated!") w))
                 else say cap1 (say (st_success "Travel plan generated!") w)
             | None => say cap1 (say (st_success "Travel plan generated!") w)
             end =
             mkWorld (w_ui w ++ st_success "Travel plan generated!" :: caps)
                     (w_session w) (w_api w) (w_files w)).
  { destruct (w_session w !! "last_usage") as [u|]; [destruct (truthy u)|];
      [exists [cap1; st_caption_usage u]|exists [cap1]|exists [cap1]];
      (split; [reflexivity|]); unfold say; cbn [w_ui w_session w_api w_files];
      rewrite <- !app_assoc; reflexivity. }
  destruct Hcaps as (caps & Hd & ->).
  cbn [say w_ui w_session w_api w_files].
  destruct (write_pdf build accepts styles now plan "travel_plan.pdf" (w_files w))
    as [[p|e|] fs1] eqn:Ew.
  - apply write_pdf_path in Ew as Ep. subst p.
    destruct (fs1 !! "travel_plan.pdf") as [data|] eqn:Ef;
      eexists caps, _, fs1;
      (split; [norm_ui; reflexivity|]);
      (split; [exact Hd|]); split; reflexivity.
  - eexists caps, _, fs1.
    split; [norm_ui; reflexivity|].
    split; [exact Hd|]. split; reflexivity.
  - exfalso. apply Hfuel. reflexivity.
Qed.

Lemma display_blank (w : @world W) plan :
  w_session w !! "plan_md" = Some (VStr plan) ->
  all_space plan = true ->
  display build accepts styles now w =
  (None,
   mkWorld (w_ui w ++
            [st_warning "The model returned an empty response.";
             st_info "Try again, or verify your API key/model access in Diagnostics above."])
           (w_session w) (w_api w) (w_files w)).
Proof.
  intros Hp Hs. unfold display. rewrite Hp. cbn [strip_value].
  rewrite (strip_all_space _ Hs). simpl negb. cbv iota zeta.
  norm_ui. reflexivity.
Qed.

(** [display] reads the session and the service state and only adds to the
    page. *)
Lemma display_frame (w : @world W) :
  w_session (snd (display build accepts styles now w)) = w_session w /\
  w_api (snd (display build accepts styles now w)) = w_api w /\
  exists rest, w_ui (snd (display build accepts styles now w)) = w_ui w ++ rest.
Proof.
  destruct (w_session w !! "plan_md") as [v|] eqn:Ev.
  - destruct v as [|n|plan|o];
      try (unfold display; rewrite Ev; cbn [strip_value snd];
           repeat split; exists []; rewrite app_nil_r; reflexivity).
    destruct (all_space plan) eqn:Es.
    + rewrite (display_blank w plan Ev Es). cbn [snd w_ui w_session w_api].
      repeat split. eexists. reflexivity.
    + destruct (display_plan w plan Ev Es) as (caps & tail & fs1 & -> & _).
      cbn [snd w_ui w_session w_api]. repeat split. eexists. reflexivity.
  - unfold display. rewrite Ev. cbn [snd]. repeat split.
    exists []. rewrite app_nil_r. reflexivity.
Qed.

(** The submitted branch stops at a warning for a blank destination or a
    number of days below one. *)
Lemma generate_invalid (w : @world W) d n :
  w_session w !! "destination" = Some (VStr d) ->
  w_session w !! "num_days" = Some (VInt n) ->
  all_space d = true \/ (n < 1)%Z ->
  exists msg,
    generate create SYSTEM_PROMPT build_user_prompt int_of_str w =
    (None, say (st_warning msg) w).
Proof.
  intros Hd Hn Hbad. unfold generate.
  rewrite Hd, or_empty_strip_str, Hn, int_or_zero_int.
  destruct (is_empty (strip d)) eqn:Ee; [eexists; reflexivity|].
  destruct Hbad as [Hs|Hlt].
  - rewrite (strip_all_space _ Hs) in Ee. discriminate.
  - apply Z.ltb_lt in Hlt. rewrite Hlt. eexists. reflexivity.
Qed.

(** X19. A submitted form with a blank destination, or with a number of days
    below one, gets a warning first; the service is not called and the
    session is left as it was. *)
Theorem invalid_input_calls_nothing (w : @world W) d n :
  w_session w !! "destination" = Some (VStr d) ->
  w_session w !! "num_days" = Some (VInt n) ->
  all_space d = true \/ (n < 1)%Z ->
  exists c w' msg rest,
    main_action create SYSTEM_PROMPT build_user_prompt int_of_str
      build accepts styles now true w = (c, w') /\
    w_session w' = w_session w /\
    w_api w' = w_api w /\
    w_ui w' = w_ui w ++ st_warning msg :: rest.
Proof.
  intros Hd Hn Hbad. unfold main_action.
  destruct (generate_invalid w d n Hd Hn Hbad) as [msg ->].
  destruct (display_frame (say (st_warning msg) w)) as (Hs & Ha & rest & Hu).
  destruct (display build accepts styles now (say (st_warning msg) w)) as [c w'].
  cbn [snd] in *. exists c, w', msg, rest. repeat split; try assumption.
  rewrite Hu. norm_ui. reflexivity.
Qed.

(** X20. When the inputs are valid and every model fails, the main action
    shows the generation error and then the empty-response warning, stores
    the empty string as the plan (an earlier plan is gone), and makes no
    PDF. *)
Theorem failed_generation_clears_plan (w : @world W) d n vi vg api' :
  w_session w !! "destination" = Some (VStr d) ->
  w_session w !! "num_days" = Some (VInt n) ->
  w_session w !! "interests" = Some vi ->
  w_session w !! "guardrails" = Some vg ->
  all_space d = false ->
  (1 <= n)%Z ->
  all_fail create FALLBACK_MODELS
    [("system", SYSTEM_PROMPT);
     ("user", build_user_prompt (strip d) n vi vg)] (w_api w) = Some api' ->
  exists e,
    main_action create SYSTEM_PROMPT build_user_prompt int_of_str
      build accepts styles now true w =
    (None,
     mkWorld (w_ui w ++
              [st_spinner "Generating your travel plan...";
               st_error_generation (Some e);
               st_warning "The model returned an empty response.";
               st_info "Try again, or verify your API key/model access in Diagnostics above."])
             (<["plan_md" := VStr []]> (w_session w)) api' (w_files w)).
Proof.
  intros Hd Hn Hi Hg Hs Hle Hf. unfold main_action, generate.
  rewrite Hd, or_empty_strip_str, Hn, int_or_zero_int.
  rewrite (all_space_false_strip _ Hs).
  assert (Hlt : (n <? 1)%Z = false) by (apply Z.ltb_ge; lia). rewrite Hlt.
  cbv zeta. cbn [say w_ui w_session w_api w_files]. rewrite Hi, Hg.
  destruct (get_plan_markdown_all_fail _ (w_session w) _ _ Hf) as [e ->].
  exists e. cbn [say w_ui w_session w_api w_files].
  rewrite (display_blank _ []); [|apply lookup_insert_eq|reflexivity].
  norm_ui. reflexivity.
Qed.

(** X21. When the inputs are valid and a plan is generated, the plan is
    stored in the session and shown, as Markdown and as raw text, whatever
    the PDF export does afterwards: a download button with the bytes of the
    written file when the export returns and the file is there, the PDF error
    and the hint to copy the plan when the export raises or the file is
    missing. *)
Theorem plan_is_shown_whatever_pdf_does
    (w : @world W) d n vi vg text ss1 api1 :
  w_session w !! "destination" = Some (VStr d) ->
  w_session w !! "num_days" = Some (VInt n) ->
  w_session w !! "interests" = Some vi ->
  w_session w !! "guardrails" = Some vg ->
  all_space d = false ->
  (1 <= n)%Z ->
  get_plan_markdown create SYSTEM_PROMPT
    (build_user_prompt (strip d) n vi vg) (w_session w) (w_api w) =
    (Plan text, ss1, api1) ->
  exists before tail w',
    main_action create SYSTEM_PROMPT build_user_prompt int_of_str
      build accepts styles now true w = (None, w') /\
    w_ui w' =
      w_ui w ++ before ++
      st_markdown text :: st_text_area "Plan (raw)" text :: tail /\
    existsb is_download before = false /\
    w_session w' = <["plan_md" := VStr text]> ss1 /\
    w_api w' = api1 /\
    match write_pdf build accepts styles now text "travel_plan.pdf" (w_files w) with
    | (Return _, fs') =>
        w_files w' = fs' /\
        match fs' !! "travel_plan.pdf" with
        | Some data =>
            tail = [st_download_button data "travel_plan.pdf" "application/pdf"]
        | None =>
            tail = [st_error_pdf OSError;
                    st_info "You can still copy the plan above while we sort out PDF export."]
        end
    | (Raise e, fs') =>
        w_files w' = fs' /\
        tail = [st_error_pdf e;
                st_info "You can still copy the plan above while we sort out PDF export."]
    | (OutOfFuel, _) => False
    end.
Proof.
  intros Hd Hn Hi Hg Hs Hle Hplan. unfold main_action, generate.
  rewrite Hd, or_empty_strip_str, Hn, int_or_zero_int.
  rewrite (all_space_false_strip _ Hs).
  assert (Hlt : (n <? 1)%Z = false) by (apply Z.ltb_ge; lia). rewrite Hlt.
  cbv zeta. cbn [say w_ui w_session w_api w_files]. rewrite Hi, Hg, Hplan.
  apply try_models_plan in Hplan
    as (tried & m & rest & w0 & comp & _ & _ & _ & _ & Htext & _).
  match goal with
  | |- context [display _ _ _ _ ?w1] =>
      destruct (display_plan w1 text) as (caps & tail & fs1 & -> & Hcaps & Hpdf);
      [apply lookup_insert_eq|exact Htext|]
  end.
  cbn [w_ui w_session w_api w_files] in *.
  eexists (st_spinner "Generating your travel plan..." ::
          st_success "Travel plan generated!" :: caps ++
          [st_subheader "Your Travel Plan"]), tail, _.
  split; [reflexivity|]. cbn [w_ui w_session w_api w_files].
  split; [norm_ui; reflexivity|].
  split; [cbn [existsb is_download]; rewrite existsb_app, Hcaps; reflexivity|].
  split; [reflexivity|]. split; [reflexivity|].
  destruct (write_pdf build accepts styles now text "travel_plan.pdf" (w_files w))
    as [[p|e|] fs']; exact Hpdf.
Qed.

(** X22. A submitted form with invalid input does not hide an earlier plan:
    after the warning, the plan still in the session is shown again under
    "Travel plan generated!" and exported again. *)
Theorem invalid_input_shows_earlier_plan (w : @world W) d n old :
  w_session w !! "destination" = Some (VStr d) ->
  w_session w !! "num_days" = Some (VInt n) ->
  w_session w !! "plan_md" = Some (VStr old) ->
  all_space d = true \/ (n < 1)%Z ->
  all_space old = false ->
  exists w' msg rest,
    main_action create SYSTEM_PROMPT build_user_prompt int_of_str
      build accepts styles now true w = (None, w') /\
    w_ui w' =
      w_ui w ++ st_warning msg :: st_success "Travel plan generated!" :: rest /\
    In (st_markdown old) rest /\
    w_files w' =
      snd (write_pdf build accepts styles now old "travel_plan.pdf" (w_files w)).
Proof.
  intros Hd Hn Hp Hbad Hs. unfold main_action.
  destruct (generate_invalid w d n Hd Hn Hbad) as [msg ->].
  destruct (display_plan (say (st_warning msg) w) old Hp Hs)
    as (caps & tail & fs1 & -> & _ & Hpdf).
  cbn [say w_ui w_session w_api w_files] in *.
  eexists _, msg, _. split; [reflexivity|]. cbn [w_ui w_files].
  split; [norm_ui; reflexivity|]. split.
  - apply in_or_app. right. right. left. reflexivity.
  - destruct (write_pdf build accepts styles now old "travel_plan.pdf" (w_files w))
      as [[p|e|] fs']; cbn [snd]; [apply Hpdf|apply Hpdf|contradiction].
Qed.

Lemma get_plan_keeps_form user_prompt ss (w : W) r ss' w' :
  get_plan_markdown create SYSTEM_PROMPT user_prompt ss w = (r, ss', w') ->
  forall k, is_model_key k = false -> ss' !! k = ss !! k.
Proof.
  intros H k Hk. unfold get_plan_markdown in H. destruct r as [text|e].
  - apply try_models_plan in H
      as (tried & m & rest & w0 & comp & _ & _ & _ & _ & _ & ->).
    unfold is_model_key in Hk. apply orb_false_iff in Hk as [H1 H2].
    apply String.eqb_neq in H1, H2.
    rewrite !lookup_insert_ne by congruence. reflexivity.
  - apply try_models_failed in H as [-> _]. reflexivity.
Qed.

Lemma form_ready_ext (ss ss' : session) :
  (forall k, is_model_key k = false -> ss' !! k = ss !! k) ->
  form_ready ss -> form_ready ss'.
Proof.
  intros H. unfold form_ready. rewrite !H by reflexivity. tauto.
Qed.

Lemma form_ready_plan (ss : session) t :
  form_ready ss -> form_ready (<["plan_md" := VStr t]> ss).
Proof.
  unfold form_ready. rewrite lookup_insert_eq.
  rewrite !lookup_insert_ne by discriminate.
  intros (Hd & Hn & Hi & Hg & _). repeat split; eauto.
Qed.

Lemma display_ready (w : @world W) p :
  w_session w !! "plan_md" = Some (VStr p) ->
  exists w', display build accepts styles now w = (None, w') /\
             w_session w' = w_session w.
Proof.
  intros Hp. destruct (all_space p) eqn:Es.
  - rewrite (display_blank w p Hp Es). eexists. split; reflexivity.
  - destruct (display_plan w p Hp Es) as (caps & tail & fs1 & -> & _).
    eexists. split; reflexivity.
Qed.

(** X23. On a session that holds a string destination, an integer number of
    days, interests, guardrails and a string plan (what the widgets and
    [init_form_state] leave there), the main action ends without an uncaught
    exception, submitted or not, whatever the service and the document
    builder do, and leaves such a session again. *)
Theorem main_action_runs_on_ready_form submitted (w : @world W) :
  form_ready (w_session w) ->
  exists w',
    main_action create SYSTEM_PROMPT build_user_prompt int_of_str
      build accepts styles now submitted w = (None, w') /\
    form_ready (w_session w').
Proof.
  intros Hready.
  pose proof Hready as ([d Hd] & [n Hn] & [vi Hi] & [vg Hg] & [p Hp]).
  unfold main_action. destruct submitted.
  - unfold generate. rewrite Hd, or_empty_strip_str, Hn, int_or_zero_int.
    destruct (is_empty (strip d)).
    { match goal with
      | |- context [display _ _ _ _ ?w1] =>
          destruct (display_ready w1 p Hp) as (w' & -> & Hs)
      end.
      exists w'. split; [reflexivity|]. rewrite Hs. exact Hready. }
    destruct (n <? 1)%Z.
    { match goal with
      | |- context [display _ _ _ _ ?w1] =>
          destruct (display_ready w1 p Hp) as (w' & -> & Hs)
      end.
      exists w'. split; [reflexivity|]. rewrite Hs. exact Hready. }
    cbv zeta. cbn [say w_ui w_session w_api w_files]. rewrite Hi, Hg.
    match goal with
    | |- context [get_plan_markdown _ _ ?up ?s ?a] =>
        destruct (get_plan_markdown create SYSTEM_PROMPT up s a)
          as [[r ss1] api1] eqn:Eg
    end.
    pose proof (form_ready_ext _ _ (get_plan_keeps_form _ _ _ _ _ _ Eg) Hready)
      as Hready1.
    destruct r as [text|e]; cbn [say w_ui w_session w_api w_files];
      match goal with
      | |- context [display _ _ _ _ ?w1] =>
          destruct (display_ready w1 _ (lookup_insert_eq _ _ _))
            as (w' & -> & Hs)
      end;
      exists w'; (split; [reflexivity|]); rewrite Hs;
      apply form_ready_plan, Hready1.
  - unfold idle. rewrite Hp. cbn [strip_value].
    destruct (negb (is_empty (strip p))); eexists; split;
      try reflexivity; exact Hready.
Qed.

End MainFacts.

Lemma invalid_input_calls_nothing_witness :
  exists c w' msg rest,
    main_action ex_create (py "You are a planner.") ex_prompt (fun _ => None)
      (direct_build 1000) ex_accepts sample_styles ex_now true
      (ex_world (<["destination" := VStr (py "   ")]> ex_form)) = (c, w') /\
    w_session w' = <["destination" := VStr (py "   ")]> ex_form /\
    w_api w' = [] /\
    w_ui w' = [] ++ st_warning msg :: rest.
Proof.
  refine (invalid_input_calls_nothing ex_create (py "You are a planner.")
            ex_prompt (fun _ => None) (direct_build 1000) ex_accepts sample_styles ex_now
            (mkWorld [] (<["destination" := VStr (py "   ")]> ex_form) [] ∅)
            (py "   ") 3 _ _ _).
  - vm_compute. reflexivity.
  - vm_compute. reflexivity.
  - left. vm_compute. reflexivity.
Defined.

Lemma failed_generation_clears_plan_witness :
  exists e,
    main_action ex_create_down (py "You are a planner.") ex_prompt
      (fun _ => None) (direct_build 1000) ex_accepts sample_styles ex_now true
      (mkWorld [] (<["plan_md" := VStr (py "## Old plan")]> ex_form) [] ∅) =
    (None,
     mkWorld ([] ++
              [st_spinner "Generating your travel plan...";
               st_error_generation (Some e);
               st_warning "The model returned an empty response.";
               st_info "Try again, or verify your API key/model access in Diagnostics above."])
             (<["plan_md" := VStr []]>
                (<["plan_md" := VStr (py "## Old plan")]> ex_form))
             ["gpt-5"; "gpt-5-mini"; "gpt-4.1"] ∅).
Proof.
  refine (failed_generation_clears_plan ex_create_down (py "You are a planner.")
            ex_prompt (fun _ => None) (direct_build 1000) ex_accepts sample_styles ex_now
            (mkWorld [] (<["plan_md" := VStr (py "## Old plan")]> ex_form) [] ∅)
            (py " Tokyo ") 3 (VStr []) (VStr [])
            ["gpt-5"; "gpt-5-mini"; "gpt-4.1"] _ _ _ _ _ _ _);
    try (vm_compute; reflexivity).
  vm_compute. discriminate.
Defined.

Lemma plan_is_shown_whatever_pdf_does_witness :
  exists before tail w',
    main_action ex_create (py "You are a planner.") ex_prompt (fun _ => None)
      (direct_build 8) ex_accepts sample_styles ex_now true (ex_world ex_form) =
      (None, w') /\
    w_ui w' =
      w_ui (ex_world ex_form) ++ before ++
      st_markdown ex_plan_text :: st_text_area "Plan (raw)" ex_plan_text :: tail /\
    existsb is_download before = false /\
    w_session w' =
      <["plan_md" := VStr ex_plan_text]>
        (<["last_usage" := VObj 7]>
           (<["last_model_used" := VStr (py "gpt-4.1")]> ex_form)) /\
    w_api w' = ["gpt-5"; "gpt-5-mini"; "gpt-4.1"] /\
    match write_pdf (direct_build 8) ex_accepts sample_styles ex_now ex_plan_text
            "travel_plan.pdf" (w_files (ex_world ex_form)) with
    | (Return _, fs') =>
        w_files w' = fs' /\
        match fs' !! "travel_plan.pdf" with
        | Some data =>
            tail = [st_download_button data "travel_plan.pdf" "application/pdf"]
        | None =>
            tail = [st_error_pdf OSError;
                    st_info "You can still copy the plan above while we sort out PDF export."]
        end
    | (Raise e, fs') =>
        w_files w' = fs' /\
        tail = [st_error_pdf e;
                st_info "You can still copy the plan above while we sort out PDF export."]
    | (OutOfFuel, _) => False
    end.
Proof.
  refine (plan_is_shown_whatever_pdf_does ex_create (py "You are a planner.")
            ex_prompt (fun _ => None) (direct_build 8) ex_accepts sample_styles ex_now
            (ex_world ex_form) (py " Tokyo ") 3 (VStr []) (VStr [])
            ex_plan_text
            (<["last_usage" := VObj 7]>
               (<["last_model_used" := VStr (py "gpt-4.1")]> ex_form))
            ["gpt-5"; "gpt-5-mini"; "gpt-4.1"] _ _ _ _ _ _ _);
    try (vm_compute; reflexivity).
  vm_compute. discriminate.
Defined.

Lemma invalid_input_shows_earlier_plan_witness :
  exists w' msg rest,
    main_action ex_create (py "You are a planner.") ex_prompt (fun _ => None)
      (direct_build 1000) ex_accepts sample_styles ex_now true
      (ex_world (<["destination" := VStr []]>
                   (<["plan_md" := VStr (py "## Old plan")]> ex_form))) =
      (None, w') /\
    w_ui w' =
      w_ui (ex_world (<["destination" := VStr []]>
                        (<["plan_md" := VStr (py "## Old plan")]> ex_form))) ++
      st_warning msg :: st_success "Travel plan generated!" :: rest /\
    In (st_markdown (py "## Old plan")) rest /\
    w_files w' =
      snd (write_pdf (direct_build 1000) ex_accepts sample_styles ex_now (py "## Old plan")
             "travel_plan.pdf"
             (w_files (ex_world (<["destination" := VStr []]>
                                   (<["plan_md" := VStr (py "## Old plan")]>
                                      ex_form))))).
Proof.
  refine (invalid_input_shows_earlier_plan ex_create (py "You are a planner.")
            ex_prompt (fun _ => None) (direct_build 1000) ex_accepts sample_styles ex_now
            (ex_world (<["destination" := VStr []]>
                         (<["plan_md" := VStr (py "## Old plan")]> ex_form)))
            [] 3 (py "## Old plan") _ _ _ _ _);
    try (vm_compute; reflexivity).
  left. reflexivity.
Defined.

Lemma main_action_runs_on_ready_form_witness :
  exists w',
    main_action ex_create (py "You are a planner.") ex_prompt (fun _ => None)
      (direct_build 1000) ex_accepts sample_styles ex_now true (ex_world ex_form) =
      (None, w') /\
    form_ready (w_session w').
Proof.
  refine (main_action_runs_on_ready_form ex_create (py "You are a planner.")
            ex_prompt (fun _ => None) (direct_build 1000) ex_accepts sample_styles ex_now
            true (ex_world ex_form) _).
  unfold form_ready. repeat split; eexists; vm_compute; reflexivity.
Defined.
